(** * twitterOLLAMA: the request dispatcher, the translator retry loop and
      the conversation context

    A shallow embedding of [twitterOLLAMA.py].  Python values are a small
    universe of dynamically typed data, exceptions are values of an outcome
    type, and the methods that touch [self.user_id_cache] or the external
    client run in a state-and-exception monad whose state survives a raised
    exception, as the attributes of a Python object do. *)

From Stdlib Require Import ZArith String Ascii List Lia.
From stdpp Require Import base tactics option list strings gmap pretty.
Import ListNotations.

Set Warnings "-register-all".

Local Open Scope Z_scope.
Local Open Scope string_scope.
Local Open Scope list_scope.
Local Open Scope stdpp_scope.

(** ** Python values *)

(** [Dict[str, Any]]: insertion-ordered, string keys; a lookup returns the
    first binding of the key. *)
Inductive pyval : Type :=
| PNone
| PBool (b : bool)
| PInt (z : Z)
| PStr (s : string)
| PList (l : list pyval)
| PDict (d : list (string * pyval)).

Abbreviation pydict := (list (string * pyval)).

Fixpoint dict_get (d : pydict) (k : string) : option pyval :=
  match d with
  | [] => None
  | (k', v) :: d' => if String.eqb k k' then Some v else dict_get d' k
  end.

(** [k in d] *)
Definition key_in (k : string) (d : pydict) : bool :=
  match dict_get d k with Some _ => true | None => false end.

(** [d.get(k, default)] *)
Definition dict_get_default (d : pydict) (k : string) (default : pyval) : pyval :=
  match dict_get d k with Some v => v | None => default end.

(** [bool(v)] *)
Definition truthy (v : pyval) : bool :=
  match v with
  | PNone => false
  | PBool b => b
  | PInt z => negb (z =? 0)%Z
  | PStr s => negb (String.eqb s "")
  | PList l => match l with [] => false | _ => true end
  | PDict d => match d with [] => false | _ => true end
  end.

Definition type_name (v : pyval) : string :=
  match v with
  | PNone => "NoneType"
  | PBool _ => "bool"
  | PInt _ => "int"
  | PStr _ => "str"
  | PList _ => "list"
  | PDict _ => "dict"
  end.

(** ** Exceptions *)

(** The classes of what can be raised.  The last three derive from
    [BaseException] only, so that [except Exception] lets them pass. *)
Inductive exn_class : Type :=
| KeyError | TypeError | AttributeError | ValueError | RuntimeError
| ValidationError | OtherException
| KeyboardInterrupt | SystemExit | CancelledError.

(** An exception is its class and the text [str(e)] renders. *)
Record pyexn : Type := Exn { exn_class_of : exn_class; exn_str : string }.

(** [isinstance(e, Exception)] *)
Definition is_exception (e : pyexn) : bool :=
  match exn_class_of e with
  | KeyboardInterrupt | SystemExit | CancelledError => false
  | _ => true
  end.

Inductive outcome (A : Type) : Type :=
| Returns (a : A)
| Raises (e : pyexn).
Arguments Returns {A} a.
Arguments Raises {A} e.

(** [str(KeyError(k))] is the [repr] of the key. *)
Definition key_error (k : string) : pyexn := Exn KeyError ("'" +:+ k +:+ "'").

(** [d[k]] on a dictionary *)
Definition dict_getitem (d : pydict) (k : string) : outcome pyval :=
  match dict_get d k with
  | Some v => Returns v
  | None => Raises (key_error k)
  end.

(** [v[k]] with a string subscript, on any value (messages of CPython 3.12) *)
Definition getitem (v : pyval) (k : string) : outcome pyval :=
  match v with
  | PDict d => dict_getitem d k
  | PStr _ => Raises (Exn TypeError "string indices must be integers, not 'str'")
  | PList _ => Raises (Exn TypeError "list indices must be integers or slices, not str")
  | _ => Raises (Exn TypeError ("'" +:+ type_name v +:+ "' object is not subscriptable"))
  end.

Definition is_substring (needle hay : string) : bool :=
  match String.index 0 needle hay with Some _ => true | None => false end.

Definition is_str (k : string) (v : pyval) : bool :=
  match v with PStr s => String.eqb s k | _ => false end.

(** [k in v] with a string on the left, on any value *)
Definition contains (k : string) (v : pyval) : outcome bool :=
  match v with
  | PDict d => Returns (key_in k d)
  | PStr s => Returns (is_substring k s)
  | PList l => Returns (existsb (is_str k) l)
  | _ => Raises (Exn TypeError
                   ("argument of type '" +:+ type_name v +:+ "' is not iterable"))
  end.

(** [v.lower()], where [lower] is the function [str.lower] computes. *)
Definition py_lower (lower : string -> string) (v : pyval) : outcome string :=
  match v with
  | PStr s => Returns (lower s)
  | _ => Raises (Exn AttributeError
                   ("'" +:+ type_name v +:+ "' object has no attribute 'lower'"))
  end.

(** ** Data models *)

(** [TwitterRequest]: pydantic has checked that [operation] is a string and
    [params] a dictionary with string keys. *)
Record TwitterRequest : Type :=
  { operation : string; params : pydict }.

(** [TwitterResponse], without its [timestamp] field (a clock reading that
    no function of this module inspects). *)
Record TwitterResponse : Type :=
  { success : bool; data : option pydict; error : option string }.

(** The response of the [except] clause, and of every failure. *)
Definition failure (error : option string) : TwitterResponse :=
  {| success := false; data := None; error := error |}.

(** What the [except Exception] clause of [execute] makes of an outcome of
    its [try] block. *)
Definition caught (o : outcome TwitterResponse) : outcome TwitterResponse :=
  match o with
  | Returns r => Returns r
  | Raises e =>
      if is_exception e then Returns (failure (Some (exn_str e))) else Raises e
  end.

(** ** The external client *)

Inductive api_call : Type :=
| get_user_info (username : pyval)
| get_user_tweets (user_id limit : pyval)
| search_tweets (query limit : pyval)
| create_tweet (text media_path reply_to_id : pyval)
| like_tweet (tweet_id : pyval)
| unlike_tweet (tweet_id : pyval)
| get_home_timeline (limit : pyval)
| delete_tweet (tweet_id : pyval).

Definition is_user_lookup (c : api_call) : bool :=
  match c with get_user_info _ => true | _ => false end.

(** The state of a [StructuredTwitterAPI] object: its cache, and the calls
    its client has received so far, oldest first. *)
Record world : Type :=
  { user_id_cache : gmap string pyval; calls : list api_call }.

(** ** The monad of methods *)

Definition M (A : Type) : Type := world -> outcome A * world.

Definition mreturn {A} (a : A) : M A := fun w => (Returns a, w).

Definition mraise {A} (e : pyexn) : M A := fun w => (Raises e, w).

Definition bind {A B} (c : M A) (k : A -> M B) : M B :=
  fun w =>
    match c w with
    | (Returns a, w') => k a w'
    | (Raises e, w') => (Raises e, w')
    end.

(** [try: c  except Exception as e: h e]: what is raised outside the class
    [Exception] goes through. *)
Definition try_except {A} (c : M A) (h : pyexn -> M A) : M A :=
  fun w =>
    match c w with
    | (Returns a, w') => (Returns a, w')
    | (Raises e, w') => if is_exception e then h e w' else (Raises e, w')
    end.

Definition lift {A} (o : outcome A) : M A := fun w => (o, w).

Notation "'let*' x ':=' c 'in' k" := (bind c (fun x => k))
  (at level 10, x name, c at level 100, k at level 200).

Section Dispatcher.

(** The client is a black box: its answer to a call may depend on the calls
    it has received before, and is a dictionary or a raised exception. *)
Variable api : list api_call -> api_call -> outcome pydict.

(** The text pydantic renders when it rejects a value for the [error] field
    of a [TwitterResponse]. *)
Variable validation_text : pyval -> string.

(** [str.lower]: its case tables belong to the interpreter, so the function
    is a parameter, and what is proved holds for whatever it computes.  A
    string is represented by its UTF-8 encoding. *)
Variable lower : string -> string.

Definition invoke (c : api_call) : M pydict :=
  fun w =>
    (api (calls w) c,
     {| user_id_cache := user_id_cache w; calls := calls w ++ [c] |}).

(** [self.user_id_cache.get(k)] *)
Definition cache_get (k : string) : M pyval :=
  fun w =>
    (Returns (match user_id_cache w !! k with Some v => v | None => PNone end), w).

(** [self.user_id_cache[k] = v] *)
Definition cache_set (k : string) (v : pyval) : M unit :=
  fun w =>
    (Returns tt,
     {| user_id_cache := <[k := v]> (user_id_cache w); calls := calls w |}).

(** [TwitterResponse(success=.., data=.., error=..)]: the [error] field is
    [Optional[str]], and pydantic accepts [None] and strings only. *)
Definition TwitterResponse_new
    (success : bool) (data : option pydict) (error : pyval)
  : outcome TwitterResponse :=
  match error with
  | PNone => Returns {| success := success; data := data; error := None |}
  | PStr s => Returns {| success := success; data := data; error := Some s |}
  | v => Raises (Exn ValidationError (validation_text v))
  end.

Definition _handle_tweets (params : pydict) : M pydict :=
  let* name := lift (dict_getitem params "username") in
  let* username := lift (py_lower lower name) in
  let* user_id := cache_get username in
  let* user_id :=
    (if negb (truthy user_id) then
       let* user_result := invoke (get_user_info (PStr username)) in
       if key_in "error" user_result then
         (* [return user_result]: leaves the method *)
         mreturn (inl user_result)
       else
         let* d := lift (dict_getitem user_result "data") in
         let* user_id := lift (getitem d "id") in
         let* _ := cache_set username user_id in
         mreturn (inr user_id)
     else mreturn (inr user_id)) in
  match user_id with
  | inl user_result => mreturn user_result
  | inr user_id =>
      invoke (get_user_tweets user_id (dict_get_default params "limit" (PInt 10)))
  end.

Definition operation_map : list (string * (pydict -> M pydict)) :=
  [ ("user", fun p =>
       let* username := lift (dict_getitem p "username") in
       invoke (get_user_info username));
    ("tweets", _handle_tweets);
    ("search", fun p =>
       let* query := lift (dict_getitem p "query") in
       invoke (search_tweets query (dict_get_default p "limit" (PInt 10))));
    ("post", fun p =>
       let* text := lift (dict_getitem p "text") in
       invoke (create_tweet text
                 (dict_get_default p "media_path" PNone)
                 (dict_get_default p "reply_to_id" PNone)));
    ("like", fun p =>
       let* tweet_id := lift (dict_getitem p "tweet_id") in
       invoke (like_tweet tweet_id));
    ("unlike", fun p =>
       let* tweet_id := lift (dict_getitem p "tweet_id") in
       invoke (unlike_tweet tweet_id));
    ("timeline", fun p =>
       invoke (get_home_timeline (dict_get_default p "limit" (PInt 20))));
    ("delete", fun p =>
       let* tweet_id := lift (dict_getitem p "tweet_id") in
       invoke (delete_tweet tweet_id)) ].

(** [operation_map[name]], [None] when [name not in operation_map] *)
Fixpoint handler_of (m : list (string * (pydict -> M pydict))) (name : string)
  : option (pydict -> M pydict) :=
  match m with
  | [] => None
  | (k, h) :: m' => if String.eqb name k then Some h else handler_of m' name
  end.

(** The statement under the comment "Cache user ID if this was a user info
    request". *)
Definition cache_user_id (request : TwitterRequest) (result : pydict) : M unit :=
  if String.eqb (operation request) "user"
     && negb (key_in "error" result) && key_in "data" result
  then
    let username := dict_get_default (params request) "username" PNone in
    let* found :=
      (if truthy username then
         let* d := lift (dict_getitem result "data") in
         lift (contains "id" d)
       else mreturn false) in
    if found then
      let* d := lift (dict_getitem result "data") in
      let* user_id := lift (getitem d "id") in
      let* key := lift (py_lower lower username) in
      cache_set key user_id
    else mreturn tt
  else mreturn tt.

(** The [TwitterResponse] the last statement of the [try] block builds from
    the handler's result. *)
Definition respond (result : pydict) : outcome TwitterResponse :=
  TwitterResponse_new
    (negb (key_in "error" result))
    (if negb (key_in "error" result) then Some result else None)
    (dict_get_default result "error" PNone).

(** The [try] block of [execute]. *)
Definition execute_try (request : TwitterRequest) : M TwitterResponse :=
  match handler_of operation_map (operation request) with
  | None =>
      lift (TwitterResponse_new false None
              (PStr ("Unsupported operation: " +:+ operation request)))
  | Some handler =>
      let* result := handler (params request) in
      let* _ := cache_user_id request result in
      lift (respond result)
  end.

Definition execute (request : TwitterRequest) : M TwitterResponse :=
  try_except (execute_try request)
    (fun e => lift (TwitterResponse_new false None (PStr (exn_str e)))).

End Dispatcher.

(** ** The translator *)

(** What [chat(...)] hands back when it does not raise. *)
Inductive chat_response : Type :=
| NoResponse                          (* a falsy object *)
| NoMessage                           (* no [message] attribute *)
| Message (content : option string).  (* [response.message.content] *)

(** The fixed system instruction of [process_nlp_request]. *)
Definition system_context : pydict :=
  [ ("role", PStr "system");
    ("content", PStr "You are a Twitter API request converter. Convert natural language queries into structured API requests.
Available operations and their parameters:
- user: {'username': str}
- tweets: {'username': str, 'limit': int}
- search: {'query': str, 'limit': int}
- post: {'text': str, 'media_path': Optional[str], 'reply_to_id': Optional[str]}
- like: {'tweet_id': str}
- unlike: {'tweet_id': str}
- timeline: {'limit': int}
- delete: {'tweet_id': str}

Consider the conversation history and last API response when converting new queries.
If a query references previous results, use that context to form the request.") ].

(** [ConversationContext]: each message is a dictionary. *)
Record ConversationContext : Type :=
  { messages : list pydict; last_response : option pydict }.

Section Translator.

(** The model service: its answer to the [n]-th invocation (from 0) with a
    message list and a model name. *)
Variable chat : nat -> list pydict -> string -> outcome chat_response.

(** [json.loads]: the decoded value, or the text of the [JSONDecodeError]. *)
Variable json_loads : string -> pyval + string.

(** The text of the exception that building a [TwitterRequest] from the
    keyword arguments [v] raises when [v] is rejected. *)
Variable rejection_text : pyval -> string.

(** [TwitterRequest] built from the keyword arguments [request_data]: the
    argument must be a mapping, with
    a string under [operation] and a dictionary under [params]; further keys
    are ignored. *)
Definition TwitterRequest_new (request_data : pyval) : outcome TwitterRequest :=
  match request_data with
  | PDict d =>
      match dict_get d "operation", dict_get d "params" with
      | Some (PStr op), Some (PDict p) =>
          Returns {| operation := op; params := p |}
      | _, _ => Raises (Exn ValidationError (rejection_text request_data))
      end
  | _ => Raises (Exn TypeError (rejection_text request_data))
  end.

(** The body of the outer [try], from the reply of [chat] on. *)
Definition read_reply (reply : outcome chat_response) : outcome TwitterRequest :=
  match reply with
  | Raises e => Raises e
  | Returns (Message (Some content)) =>
      if String.eqb content "" then
        Raises (Exn ValueError "Invalid response format from Ollama")
      else
        match json_loads content with
        | inl request_data => TwitterRequest_new request_data
        | inr e =>
            Raises (Exn ValueError ("Failed to parse JSON response: " +:+ e))
        end
  | Returns _ => Raises (Exn ValueError "Invalid response format from Ollama")
  end.

(** The replies of the service that count as invalid output: nothing
    usable in them (no response, no message, no content, empty content),
    content that does not decode, or a decoded value that is not a mapping
    with a string under [operation] and a mapping under [params]. *)
Inductive invalid_output : chat_response -> Prop :=
| invalid_no_response : invalid_output NoResponse
| invalid_no_message : invalid_output NoMessage
| invalid_no_content : invalid_output (Message None)
| invalid_empty_content : invalid_output (Message (Some ""))
| invalid_undecodable content e :
    content <> "" ->
    json_loads content = inr e ->
    invalid_output (Message (Some content))
| invalid_wrong_shape content v :
    content <> "" ->
    json_loads content = inl v ->
    (forall d op p,
        v = PDict d ->
        dict_get d "operation" = Some (PStr op) ->
        dict_get d "params" = Some (PDict p) -> False) ->
    invalid_output (Message (Some content)).

(** The replies that carry a request. *)
Inductive valid_output : chat_response -> TwitterRequest -> Prop :=
| valid_request content d op p :
    content <> "" ->
    json_loads content = inl (PDict d) ->
    dict_get d "operation" = Some (PStr op) ->
    dict_get d "params" = Some (PDict p) ->
    valid_output (Message (Some content)) {| operation := op; params := p |}.

(** The [i]-th reply of the service fails validation with exception [e],
    one that [except Exception] catches. *)
Definition invalid_reply (msgs : list pydict) (model : string) (i : nat)
    (e : pyexn) : Prop :=
  read_reply (chat i msgs model) = Raises e ∧ is_exception e = true.

Definition failure_text (max_retries : Z) (e : pyexn) : string :=
  "Failed to process NLP request after " +:+ pretty max_retries
    +:+ " attempts: " +:+ exn_str e.

(** [for attempt in range(max_retries)], with [remaining] iterations to go
    and [n] invocations of the service made so far.  Falling off the end of
    the loop returns [None]; what is raised outside the class [Exception]
    leaves the loop at once.  The one-second sleep between attempts is taken
    to elapse: the program starts no task besides its main one and cancels
    none, and a cancellation delivered from outside while it sleeps is not
    described here. *)
Fixpoint retry_loop (msgs : list pydict) (model : string) (max_retries : Z)
    (remaining : nat) (attempt : Z) (n : nat)
  : outcome (option TwitterRequest) * nat :=
  match remaining with
  | O => (Returns None, n)
  | S remaining' =>
      match read_reply (chat n msgs model) with
      | Returns request => (Returns (Some request), S n)
      | Raises e =>
          if negb (is_exception e) then (Raises e, S n)
          else if (attempt =? max_retries - 1)%Z then
            (Raises (Exn RuntimeError (failure_text max_retries e)), S n)
          else
            retry_loop msgs model max_retries remaining' (attempt + 1) (S n)
      end
  end.

(** The message list handed to the service: the system instruction, the
    turns of the context in order, and the new query.  It is a fresh list;
    the context is not modified. *)
Definition build_messages (query : string) (context : ConversationContext)
  : list pydict :=
  ([system_context] ++ messages context)
    ++ [[ ("role", PStr "user");
          ("content",
           PStr ("Convert this query to a Twitter API request (considering previous context if relevant): "
                 +:+ query)) ]].

(** [n] is the number of invocations of the service before the call; the
    result pairs the outcome with the number after it. *)
Definition process_nlp_request (query : string) (context : ConversationContext)
    (model : string) (max_retries : Z) (n : nat)
  : outcome (option TwitterRequest) * nat :=
  retry_loop (build_messages query context) model max_retries
    (Z.to_nat max_retries) 0 n.

End Translator.

(** ** The conversation context *)

Definition of_optional (o : option pydict) : pyval :=
  match o with Some d => PDict d | None => PNone end.

(** [now] is [datetime.now().isoformat()] at the time of the call. *)
Definition add_user_message (now message : string) (ctx : ConversationContext)
  : ConversationContext :=
  {| messages :=
       messages ctx
         ++ [[ ("role", PStr "user"); ("content", PStr message);
               ("timestamp", PStr now) ]];
     last_response := last_response ctx |}.

(** [api_response] is [None] when the caller leaves it out. *)
Definition add_assistant_message (now message : string)
    (api_response : option pydict) (ctx : ConversationContext)
  : ConversationContext :=
  {| messages :=
       messages ctx
         ++ [[ ("role", PStr "assistant"); ("content", PStr message);
               ("api_response", of_optional api_response);
               ("timestamp", PStr now) ]];
     last_response := api_response |}.

(** ** Reference data *)

(** The operation kinds, as the comment on [TwitterRequest.operation] lists
    them. *)
Definition known_operations : list string :=
  ["user"; "tweets"; "search"; "post"; "like"; "unlike"; "timeline"; "delete"].

(** The "required params" column of the interface table of the
    specification (section 6), as pairs of an operation and a key. *)
Definition spec_required_params : list (string * string) :=
  [ ("user", "username"); ("tweets", "username"); ("search", "query");
    ("post", "text"); ("like", "tweet_id"); ("unlike", "tweet_id");
    ("delete", "tweet_id") ].

(** [user_id_cache.get(k)] as a value *)
Definition cached (w : world) (k : string) : pyval :=
  match user_id_cache w !! k with Some v => v | None => PNone end.

(** ** Test doubles *)

(** Lowercasing of the letters A to Z, which is what [str.lower] does to
    text that is ASCII only. *)
Definition lower_ascii (c : ascii) : ascii :=
  let n := nat_of_ascii c in
  if ((65 <=? n) && (n <=? 90))%nat then ascii_of_nat (n + 32) else c.

Fixpoint ascii_lower (s : string) : string :=
  match s with
  | EmptyString => EmptyString
  | String c s' => String (lower_ascii c) (ascii_lower s')
  end.

(** A client that answers every user lookup with [user_answer] and every
    other call with [other_answer]. *)
Definition stub_client (user_answer other_answer : outcome pydict)
  : list api_call -> api_call -> outcome pydict :=
  fun _ c => if is_user_lookup c then user_answer else other_answer.

Definition stub_text : pyval -> string := fun _ => "validation error".

Definition fresh_world : world := {| user_id_cache := ∅; calls := [] |}.

(** A state whose cache knows one user. *)
Definition warm_world : world :=
  {| user_id_cache := {["elonmusk" := PStr "44196397"]}; calls := [] |}.

(** A state whose cache binds that user to the empty identifier. *)
Definition stale_world : world :=
  {| user_id_cache := {["elonmusk" := PStr ""]}; calls := [] |}.

Definition elon : pydict :=
  [ ("data", PDict [ ("id", PStr "44196397"); ("username", PStr "elonmusk") ]) ].

Definition no_tweets : pydict := [ ("data", PList []) ].

(** A client whose first user lookup reports an empty identifier and whose
    later lookups report the real one. *)
Definition late_id_client : list api_call -> api_call -> outcome pydict :=
  fun history c =>
    if is_user_lookup c then
      match history with
      | [] => Returns [ ("data", PDict [ ("id", PStr "") ]) ]
      | _ => Returns elon
      end
    else Returns no_tweets.

(** A model service whose first [bad] replies are not JSON and whose later
    replies are the document [REQUEST]. *)
Definition flaky_chat (bad : nat)
  : nat -> list pydict -> string -> outcome chat_response :=
  fun i _ _ =>
    if (i <? bad)%nat then Returns (Message (Some "not json"))
    else Returns (Message (Some "REQUEST")).

(** A decoder that knows the document [REQUEST] only. *)
Definition stub_json_loads (content : string) : pyval + string :=
  if String.eqb content "REQUEST" then
    inl (PDict [ ("operation", PStr "user");
                 ("params", PDict [ ("username", PStr "elonmusk") ]) ])
  else inr "Expecting value: line 1 column 1 (char 0)".

Definition empty_context : ConversationContext :=
  {| messages := []; last_response := None |}.

(** ** Sequences of context updates *)

(** A call of one of the two methods of [ConversationContext]. *)
Inductive context_op : Type :=
| UserMessage (now message : string)
| AssistantMessage (now message : string) (api_response : option pydict).

Definition apply_op (ctx : ConversationContext) (o : context_op)
  : ConversationContext :=
  match o with
  | UserMessage now message => add_user_message now message ctx
  | AssistantMessage now message api_response =>
      add_assistant_message now message api_response ctx
  end.

Definition apply_ops (ctx : ConversationContext) (ops : list context_op)
  : ConversationContext :=
  fold_left apply_op ops ctx.

Definition is_assistant (turn : pydict) : bool :=
  match dict_get turn "role" with
  | Some (PStr r) => String.eqb r "assistant"
  | _ => false
  end.

(** The [api_response] entry of the latest assistant turn of a message
    list, [None] when there is no assistant turn. *)
Definition latest_api_response (msgs : list pydict) : pyval :=
  fold_left
    (fun latest turn =>
       if is_assistant turn then dict_get_default turn "api_response" PNone
       else latest)
    msgs PNone.

(** ** One turn of the interactive session *)

(** The objects [interactive_session] creates, the number of invocations
    the model service has received, and the exception that has left the
    loop, if one has: the loop's [except Exception] stops none that is
    outside the class [Exception]. *)
Record session : Type :=
  { api_state : world; context : ConversationContext; chat_calls : nat;
    interrupt : option pyexn }.

(** How an f-string renders an [Optional[str]]. *)
Definition format_optional (o : option string) : string :=
  match o with Some s => s | None => "None" end.

Section Session.

Variable api : list api_call -> api_call -> outcome pydict.
Variable validation_text : pyval -> string.
Variable lower : string -> string.
Variable chat : nat -> list pydict -> string -> outcome chat_response.
Variable json_loads : string -> pyval + string.
Variable rejection_text : pyval -> string.

(** What the [except] clause of the loop appends. *)
Definition record_error (now : string) (e : pyexn) (ctx : ConversationContext)
  : ConversationContext :=
  add_assistant_message now ("Error: " +:+ exn_str e) None ctx.

(** The body of the [while] loop for a line [query] that is not an exit
    command; [now_user] and [now_assistant] are the clock readings of the
    two turns it records.  Printing is left out: what the loop prints is a
    string or the serialisation of values of [pyval], which [json.dumps]
    accepts; a failure of the output stream itself is not described here.  The translator is called with its default model and retry
    count. *)
Definition session_turn (query now_user now_assistant : string) (s : session)
  : session :=
  let ctx := add_user_message now_user query (context s) in
  match process_nlp_request chat json_loads rejection_text query ctx
          "hermes3" 3 (chat_calls s) with
  | (Returns (Some request), n) =>
      match execute api validation_text lower request (api_state s) with
      | (Returns response, w) =>
          {| api_state := w;
             context :=
               if success response then
                 add_assistant_message now_assistant
                   ("‚úÖ Successfully executed " +:+ operation request
                      +:+ " operation.")
                   (data response) ctx
               else
                 add_assistant_message now_assistant
                   ("‚ùå Error executing " +:+ operation request +:+ ": "
                      +:+ format_optional (error response))
                   None ctx;
             chat_calls := n; interrupt := interrupt s |}
      | (Raises e, w) =>
          if is_exception e then
            {| api_state := w; context := record_error now_assistant e ctx;
               chat_calls := n; interrupt := interrupt s |}
          else
            {| api_state := w; context := ctx; chat_calls := n;
               interrupt := Some e |}
      end
  | (Returns None, n) =>
      (* [request.model_dump()] on [None] *)
      {| api_state := api_state s;
         context :=
           record_error now_assistant
             (Exn AttributeError
                "'NoneType' object has no attribute 'model_dump'") ctx;
         chat_calls := n; interrupt := interrupt s |}
  | (Raises e, n) =>
      if is_exception e then
        {| api_state := api_state s; context := record_error now_assistant e ctx;
           chat_calls := n; interrupt := interrupt s |}
      else
        {| api_state := api_state s; context := ctx; chat_calls := n;
           interrupt := Some e |}
  end.

End Session.

(** The session as [interactive_session] starts it. *)
Definition initial_session : session :=
  {| api_state := fresh_world; context := empty_context; chat_calls := 0;
     interrupt := None |}.

(** ** The effects of a dispatch *)

(** The effect of [execute] on the state, by cases. *)
Inductive effect (lower : string -> string) (request : TwitterRequest)
    (w : world)
  : outcome TwitterResponse -> world -> Prop :=
| effect_none o :
    effect lower request w o w
| effect_call o c :
    (operation request = "tweets" →
       is_user_lookup c = false →
       ∃ name id,
         dict_get (params request) "username" = Some (PStr name) ∧
         user_id_cache w !! lower name = Some id ∧ truthy id = true ∧
         c = get_user_tweets id
               (dict_get_default (params request) "limit" (PInt 10))) →
    effect lower request w o
      {| user_id_cache := user_id_cache w; calls := calls w ++ [c] |}
| effect_user_cached name id result :
    operation request = "user" →
    dict_get (params request) "username" = Some (PStr name) →
    name ≠ "" →
    effect lower request w
      (Returns {| success := true; data := Some result; error := None |})
      {| user_id_cache := <[lower name := id]> (user_id_cache w);
         calls := calls w ++ [get_user_info (PStr name)] |}
| effect_tweets_cached o name id :
    operation request = "tweets" →
    dict_get (params request) "username" = Some (PStr name) →
    truthy (cached w (lower name)) = false →
    effect lower request w o
      {| user_id_cache := <[lower name := id]> (user_id_cache w);
         calls :=
           calls w ++
             [get_user_info (PStr (lower name));
              get_user_tweets id
                (dict_get_default (params request) "limit" (PInt 10))] |}.

(** The outcome of a dispatch that makes the single call [call] and leaves
    the cache alone: the normalised answer of the client, and the state with
    the call logged. *)
Definition single_call_run (api : list api_call -> api_call -> outcome pydict)
    (validation_text : pyval -> string) (w : world) (call : api_call)
  : outcome TwitterResponse * world :=
  (caught (match api (calls w) call with
           | Returns result => respond validation_text result
           | Raises e => Raises e
           end),
   {| user_id_cache := user_id_cache w; calls := calls w ++ [call] |}).

(** ** The normalisation rule *)

(** The one client call behind each kind other than [tweets], with the
    defaults of its optional parameters (the lambdas of [operation_map]). *)
Inductive single_call : string -> pydict -> api_call -> Prop :=
| call_user p v :
    dict_get p "username" = Some v ->
    single_call "user" p (get_user_info v)
| call_search p v :
    dict_get p "query" = Some v ->
    single_call "search" p
      (search_tweets v (dict_get_default p "limit" (PInt 10)))
| call_post p v :
    dict_get p "text" = Some v ->
    single_call "post" p
      (create_tweet v (dict_get_default p "media_path" PNone)
         (dict_get_default p "reply_to_id" PNone))
| call_like p v :
    dict_get p "tweet_id" = Some v ->
    single_call "like" p (like_tweet v)
| call_unlike p v :
    dict_get p "tweet_id" = Some v ->
    single_call "unlike" p (unlike_tweet v)
| call_timeline p :
    single_call "timeline" p
      (get_home_timeline (dict_get_default p "limit" (PInt 20)))
| call_delete p v :
    dict_get p "tweet_id" = Some v ->
    single_call "delete" p (delete_tweet v).

(** The rule as the amended C1 words it, with the outcome of the deciding
    client call as its argument: a mapping without [error] is a success
    around the mapping; a mapping with [error] is a failure carrying the
    value under the key when it is a string or [None], the validation text
    otherwise; an exception of class [Exception] is a failure carrying its
    text; any other raised value is raised again. *)
Definition spec_normalise (validation_text : pyval -> string)
    (o : outcome pydict) : outcome TwitterResponse :=
  match o with
  | Raises e =>
      if is_exception e then Returns (failure (Some (exn_str e))) else Raises e
  | Returns result =>
      match dict_get result "error" with
      | None => Returns {| success := true; data := Some result; error := None |}
      | Some PNone => Returns (failure None)
      | Some (PStr s) => Returns (failure (Some s))
      | Some v => Returns (failure (Some (validation_text v)))
      end
  end.

(** * Properties of the dispatcher *)

Section DispatcherFacts.

Variable api : list api_call -> api_call -> outcome pydict.
Variable vtext : pyval -> string.
Variable lower : string -> string.

Ltac unfold_monad :=
  unfold bind, try_except, lift, mreturn, mraise, invoke, cache_get, cache_set in *.

Lemma operation_map_keys : map fst (operation_map api lower) = known_operations.
Proof. reflexivity. Qed.

Lemma handler_of_unknown (name : string) :
  name ∉ known_operations → handler_of (operation_map api lower) name = None.
Proof.
  intros Hname. unfold known_operations in Hname. cbn [handler_of operation_map].
  repeat match goal with
  | |- context [String.eqb name ?k] =>
      destruct (String.eqb_spec name k) as [-> | _];
      [exfalso; apply Hname; set_solver |]
  end.
  reflexivity.
Qed.

Lemma handler_of_known (name : string) :
  name ∈ known_operations → is_Some (handler_of (operation_map api lower) name).
Proof.
  unfold known_operations. intros Hname.
  repeat (apply elem_of_cons in Hname as [-> | Hname]; [by eexists |]).
  by apply elem_of_nil in Hname.
Qed.

Lemma execute_unfold request w :
  execute api vtext lower request w =
    (caught (fst (execute_try api vtext lower request w)),
     snd (execute_try api vtext lower request w)).
Proof.
  unfold execute, try_except.
  destruct (execute_try api vtext lower request w) as [[r | e] w']; cbn [fst snd caught];
    [reflexivity |].
  by destruct (is_exception e).
Qed.

Lemma caught_returns o r :
  caught o = Returns r →
  o = Returns r ∨
  ∃ e, o = Raises e ∧ is_exception e = true ∧ r = failure (Some (exn_str e)).
Proof.
  destruct o as [r' | e]; cbn [caught]; [intros [= ->]; by left |].
  destruct (is_exception e) eqn:He; [intros [= <-] | intros [=]].
  right. eauto.
Qed.

Lemma caught_raises o e :
  caught o = Raises e → o = Raises e ∧ is_exception e = false.
Proof.
  destruct o as [r' | e']; cbn [caught]; [intros [=] |].
  destruct (is_exception e') eqn:He; [intros [=] | intros [= <-]]. done.
Qed.

Lemma cache_user_id_other request result w :
  operation request ≠ "user" → cache_user_id lower request result w = (Returns tt, w).
Proof.
  intros Hop. unfold cache_user_id.
  destruct (String.eqb_spec (operation request) "user"); [done |]. reflexivity.
Qed.

(** The caching statement only ever adds or replaces one binding, and never
    calls the client. *)
Lemma cache_user_id_calls request result w :
  calls (snd (cache_user_id lower request result w)) = calls w.
Proof.
  unfold cache_user_id.
  destruct (_ && _); [| reflexivity].
  unfold_monad.
  destruct (truthy _); [| reflexivity].
  destruct (dict_getitem result "data") as [d | e]; [| reflexivity].
  destruct (contains "id" d) as [[] | e]; try reflexivity.
  destruct (getitem d "id"); [| reflexivity].
  destruct (py_lower _ _); reflexivity.
Qed.

(** What the operations on values raise is caught by [except Exception]. *)
Lemma dict_getitem_exception d k e :
  dict_getitem d k = Raises e → is_exception e = true.
Proof. unfold dict_getitem. destruct (dict_get d k); by intros [= <-]. Qed.

Lemma getitem_exception v k e :
  getitem v k = Raises e → is_exception e = true.
Proof.
  destruct v; cbn [getitem]; try by intros [= <-].
  apply dict_getitem_exception.
Qed.

Lemma contains_exception k v e :
  contains k v = Raises e → is_exception e = true.
Proof. destruct v; cbn [contains]; by intros [= <-]. Qed.

Lemma py_lower_exception v e :
  py_lower lower v = Raises e → is_exception e = true.
Proof. destruct v; cbn [py_lower]; by intros [= <-]. Qed.

Lemma cache_user_id_exception request result w e w' :
  cache_user_id lower request result w = (Raises e, w') → is_exception e = true.
Proof.
  unfold cache_user_id.
  destruct (_ && _); [| intros [=]].
  unfold_monad.
  destruct (truthy _); [| intros [=]].
  destruct (dict_getitem result "data") as [d | e0] eqn:Hd;
    [| intros [= <- <-]; by eapply dict_getitem_exception].
  destruct (contains "id" d) as [[] | e0] eqn:Hc;
    [| intros [=] | intros [= <- <-]; by eapply contains_exception].
  destruct (getitem d "id") as [id | e0] eqn:Hid;
    [| intros [= <- <-]; by eapply getitem_exception].
  destruct (py_lower _ _) as [k | e0] eqn:Hk;
    [intros [=] | intros [= <- <-]; by eapply py_lower_exception].
Qed.

Lemma respond_cases result :
  respond vtext result =
    match dict_get result "error" with
    | None => Returns {| success := true; data := Some result; error := None |}
    | Some PNone => Returns {| success := false; data := None; error := None |}
    | Some (PStr s) => Returns {| success := false; data := None; error := Some s |}
    | Some v => Raises (Exn ValidationError (vtext v))
    end.
Proof.
  unfold respond, key_in, dict_get_default.
  destruct (dict_get result "error") as [[] |]; reflexivity.
Qed.

(** The response [execute] builds from a client outcome is the one the
    normalisation rule names. *)
Lemma caught_respond o :
  caught (match o with
          | Returns result => respond vtext result
          | Raises e => Raises e
          end) = spec_normalise vtext o.
Proof.
  destruct o as [result | e]; [| reflexivity].
  rewrite respond_cases. unfold spec_normalise.
  by destruct (dict_get result "error") as [[] |].
Qed.

(** C6: an operation name outside the eight kinds is answered at once with
    [success = false] and the text "Unsupported operation: " followed by the
    name; the state is the one [execute] started from, so no call reached
    the client and the cache is as it was. *)
Theorem execute_unsupported_operation request w :
  operation request ∉ known_operations →
  execute api vtext lower request w =
    (Returns {| success := false; data := None;
                error := Some ("Unsupported operation: " +:+ operation request) |},
     w).
Proof.
  intros Hop. rewrite execute_unfold. unfold execute_try.
  rewrite (handler_of_unknown _ Hop). reflexivity.
Qed.

(** C8: when the params of a known operation lack that operation's required
    key, [execute] returns (it does not raise) a failure response whose
    error is the quoted name of the missing key; the client is not called
    and the cache is untouched. *)
Theorem execute_missing_required_param request key w :
  (operation request, key) ∈ spec_required_params →
  dict_get (params request) key = None →
  execute api vtext lower request w =
    (Returns {| success := false; data := None;
                error := Some ("'" +:+ key +:+ "'") |}, w).
Proof.
  destruct request as [op p]. cbn [operation params].
  unfold spec_required_params. intros Hreq Hmiss.
  repeat (apply elem_of_cons in Hreq as [[= -> ->] | Hreq];
    [rewrite execute_unfold; unfold execute_try;
     cbn [handler_of operation_map operation params String.eqb Ascii.eqb
          Bool.eqb];
     unfold _handle_tweets; unfold_monad; unfold dict_getitem;
     rewrite Hmiss; reflexivity |]).
  by apply elem_of_nil in Hreq.
Qed.

(** ** Handlers *)

Lemma execute_non_user request w h :
  handler_of (operation_map api lower) (operation request) = Some h →
  operation request ≠ "user" →
  execute api vtext lower request w =
    (caught (match fst (h (params request) w) with
             | Returns result => respond vtext result
             | Raises e => Raises e
             end),
     snd (h (params request) w)).
Proof.
  intros Hh Hop. rewrite execute_unfold. unfold execute_try. rewrite Hh.
  unfold bind, lift.
  destruct (h (params request) w) as [[result | e] w1]; [| reflexivity].
  by rewrite (cache_user_id_other _ _ _ Hop).
Qed.

(** The kinds other than [tweets] are one call to the client. *)
Lemma single_call_handler op p c :
  single_call op p c →
  ∃ h, handler_of (operation_map api lower) op = Some h ∧
       ∀ w, h p w = invoke api c w.
Proof.
  intros Hc. destruct Hc; eexists; (split; [reflexivity |]); intros w;
    unfold_monad; unfold dict_getitem;
    repeat match goal with H : dict_get _ _ = Some _ |- _ => rewrite H end;
    reflexivity.
Qed.

(** The caching statement completes whenever the result's [data] entry, if
    any, is a dictionary and the username, if any, is a string. *)
Lemma cache_user_id_completes request result w :
  (∀ v, dict_get result "data" = Some v → ∃ d, v = PDict d) →
  (∀ v, dict_get (params request) "username" = Some v → ∃ s, v = PStr s) →
  ∃ w', cache_user_id lower request result w = (Returns tt, w') ∧
        calls w' = calls w.
Proof.
  intros Hdata Hname. unfold cache_user_id, key_in, dict_get_default.
  destruct (String.eqb _ _); [| by eexists].
  destruct (dict_get result "error"); [by eexists |].
  destruct (dict_get result "data") as [v |] eqn:Hv; [| by eexists].
  destruct (Hdata v eq_refl) as [d ->]. cbn [negb andb].
  unfold_monad. unfold dict_getitem. rewrite Hv.
  destruct (dict_get (params request) "username") as [u |] eqn:Hu;
    [| by eexists].
  destruct (Hname u eq_refl) as [s ->]. cbn [truthy].
  destruct (negb _); [| by eexists].
  cbn [contains getitem py_lower]. unfold key_in, dict_getitem.
  destruct (dict_get d "id"); by eexists.
Qed.

Lemma execute_user_call p w v :
  dict_get p "username" = Some v →
  execute api vtext lower {| operation := "user"; params := p |} w =
    match api (calls w) (get_user_info v) with
    | Raises e =>
        (caught (Raises e),
         {| user_id_cache := user_id_cache w;
            calls := calls w ++ [get_user_info v] |})
    | Returns result =>
        let run :=
          cache_user_id lower {| operation := "user"; params := p |} result
            {| user_id_cache := user_id_cache w;
               calls := calls w ++ [get_user_info v] |} in
        (caught (match fst run with
                 | Returns _ => respond vtext result
                 | Raises e => Raises e
                 end), snd run)
    end.
Proof.
  intros Hv. rewrite execute_unfold. unfold execute_try.
  cbn [handler_of operation_map operation params String.eqb Ascii.eqb Bool.eqb].
  unfold bind, lift, dict_getitem, invoke. rewrite Hv.
  destruct (api (calls w) (get_user_info v)) as [result | e]; [| reflexivity].
  cbn zeta.
  by destruct (cache_user_id lower _ result _) as [[[] | e] w2].
Qed.

Lemma handle_tweets_hit p w name id :
  dict_get p "username" = Some (PStr name) →
  user_id_cache w !! lower name = Some id →
  truthy id = true →
  _handle_tweets api lower p w =
    invoke api (get_user_tweets id (dict_get_default p "limit" (PInt 10))) w.
Proof.
  intros Hname Hid Htrue. unfold _handle_tweets. unfold_monad.
  unfold dict_getitem. rewrite Hname. cbn [py_lower].
  rewrite Hid, Htrue. reflexivity.
Qed.

Lemma handle_tweets_miss p w name :
  dict_get p "username" = Some (PStr name) →
  truthy (cached w (lower name)) = false →
  _handle_tweets api lower p w =
    let lookup := get_user_info (PStr (lower name)) in
    let w1 := {| user_id_cache := user_id_cache w; calls := calls w ++ [lookup] |} in
    match api (calls w) lookup with
    | Raises e => (Raises e, w1)
    | Returns user_result =>
        if key_in "error" user_result then (Returns user_result, w1)
        else
          match dict_getitem user_result "data" with
          | Raises e => (Raises e, w1)
          | Returns d =>
              match getitem d "id" with
              | Raises e => (Raises e, w1)
              | Returns fresh =>
                  invoke api
                    (get_user_tweets fresh (dict_get_default p "limit" (PInt 10)))
                    {| user_id_cache := <[lower name := fresh]> (user_id_cache w);
                       calls := calls w1 |}
              end
          end
    end.
Proof.
  intros Hname Hmiss. unfold _handle_tweets. unfold_monad.
  unfold dict_getitem at 1. rewrite Hname. cbn [py_lower].
  unfold cached in Hmiss. rewrite Hmiss. cbn [negb calls user_id_cache].
  destruct (api (calls w) _) as [user_result | e]; [| reflexivity].
  destruct (key_in "error" user_result); [reflexivity |].
  destruct (dict_getitem user_result "data") as [d | e]; [| reflexivity].
  destruct (getitem d "id"); reflexivity.
Qed.

Lemma cache_user_id_error request result w v :
  dict_get result "error" = Some v →
  cache_user_id lower request result w = (Returns tt, w).
Proof.
  intros Hv. unfold cache_user_id, key_in. rewrite Hv.
  by rewrite andb_false_r.
Qed.

(** How the [try] block comes to return a response. *)
Lemma execute_try_returns request w r w' :
  execute_try api vtext lower request w = (Returns r, w') →
  (handler_of (operation_map api lower) (operation request) = None ∧
   r = failure (Some ("Unsupported operation: " +:+ operation request)) ∧
   w' = w) ∨
  ∃ h result w1,
    handler_of (operation_map api lower) (operation request) = Some h ∧
    h (params request) w = (Returns result, w1) ∧
    cache_user_id lower request result w1 = (Returns tt, w') ∧
    respond vtext result = Returns r.
Proof.
  unfold execute_try.
  destruct (handler_of (operation_map api lower) (operation request))
    as [h |] eqn:Hh; [| intros [= <- <-]; by left].
  unfold bind, lift.
  destruct (h (params request) w) as [[result | e] w1] eqn:Hrun; [| intros [=]].
  destruct (cache_user_id lower request result w1) as [[[] | e] w2] eqn:Hcache;
    [| intros [=]].
  intros [= Hr <-]. right. exists h, result, w1. by repeat split.
Qed.

Lemma execute_returns request w r w' :
  execute api vtext lower request w = (Returns r, w') →
  execute_try api vtext lower request w = (Returns r, w') ∨
  ∃ e, execute_try api vtext lower request w = (Raises e, w') ∧
       is_exception e = true ∧ r = failure (Some (exn_str e)).
Proof.
  rewrite execute_unfold.
  destruct (execute_try api vtext lower request w) as [o w1]. cbn [fst snd].
  intros [= Hc <-]. destruct (caught_returns _ _ Hc) as [-> | (e & -> & He & ->)];
    [by left | right; eauto].
Qed.

(** C1 (amended): [execute] raises nothing that [except Exception]
    catches, and its response is the normalisation rule applied to the
    outcome of the deciding client call.  For the kinds with one call that
    is their call (for [user], in case of a mapping without [error], as
    long as the mapping's [data] entry, if any, is a mapping and the
    username a string).  For [tweets] it is the user-tweets call, made with
    the cached identifier on a hit and, on a miss, with the identifier the
    lookup returned; and it is the lookup itself when the lookup raises or
    returns a mapping with an [error] key. *)
Theorem execute_normalises request w :
  (∀ e w', execute api vtext lower request w = (Raises e, w') →
           is_exception e = false) ∧
  (∀ c,
     single_call (operation request) (params request) c →
     (operation request = "user" →
      ∀ result,
        api (calls w) c = Returns result →
        dict_get result "error" = None →
        (∀ dv, dict_get result "data" = Some dv → ∃ d, dv = PDict d) ∧
        (∀ u, dict_get (params request) "username" = Some u → ∃ s, u = PStr s)) →
     fst (execute api vtext lower request w)
       = spec_normalise vtext (api (calls w) c)) ∧
  (∀ name id,
     operation request = "tweets" →
     dict_get (params request) "username" = Some (PStr name) →
     user_id_cache w !! lower name = Some id →
     truthy id = true →
     fst (execute api vtext lower request w)
       = spec_normalise vtext
           (api (calls w)
              (get_user_tweets id
                 (dict_get_default (params request) "limit" (PInt 10))))) ∧
  (∀ name,
     operation request = "tweets" →
     dict_get (params request) "username" = Some (PStr name) →
     truthy (cached w (lower name)) = false →
     let lookup := get_user_info (PStr (lower name)) in
     (∀ e, api (calls w) lookup = Raises e →
           fst (execute api vtext lower request w)
             = spec_normalise vtext (Raises e)) ∧
     (∀ user_result,
        api (calls w) lookup = Returns user_result →
        key_in "error" user_result = true →
        fst (execute api vtext lower request w)
          = spec_normalise vtext (Returns user_result)) ∧
     (∀ user_result d fresh,
        api (calls w) lookup = Returns user_result →
        dict_get user_result "error" = None →
        dict_get user_result "data" = Some d →
        getitem d "id" = Returns fresh →
        fst (execute api vtext lower request w)
          = spec_normalise vtext
              (api (calls w ++ [lookup])
                 (get_user_tweets fresh
                    (dict_get_default (params request) "limit" (PInt 10)))))).
Proof.
  destruct request as [op p]. cbn [operation params].
  split; [| split; [| split]].
  - intros e w'. rewrite execute_unfold. intros [= Hc _].
    by destruct (caught_raises _ _ Hc).
  - intros c Hc Hsafe.
    destruct (decide (op = "user")) as [-> | Hop].
    + inversion Hc as [p' v Hv | | | | | |]; subst.
      rewrite (execute_user_call _ _ _ Hv).
      destruct (api (calls w) (get_user_info v)) as [result | e] eqn:Hapi;
        [| reflexivity].
      cbn zeta. destruct (dict_get result "error") as [ev |] eqn:Herr.
      * rewrite (cache_user_id_error _ _ _ _ Herr). cbn [fst].
        by rewrite <- caught_respond.
      * destruct (Hsafe eq_refl result eq_refl Herr) as [Hdata Hname].
        destruct (cache_user_id_completes
                    {| operation := "user"; params := p |} result
                    {| user_id_cache := user_id_cache w;
                       calls := calls w ++ [get_user_info v] |} Hdata Hname)
          as (w2 & -> & _).
        cbn [fst]. by rewrite <- caught_respond.
    + destruct (single_call_handler _ _ _ Hc) as (h & Hh & Hrun).
      rewrite (execute_non_user {| operation := op; params := p |} w h Hh Hop).
      cbn [fst params].
      rewrite Hrun. unfold invoke. cbn [fst]. apply caught_respond.
  - intros name id -> Hname Hid Htrue.
    rewrite (execute_non_user _ w (_handle_tweets api lower)); [| reflexivity | done].
    cbn [fst params]. rewrite (handle_tweets_hit _ _ _ _ Hname Hid Htrue).
    unfold invoke. cbn [fst]. apply caught_respond.
  - intros name -> Hname Hmiss.
    rewrite (execute_non_user _ w (_handle_tweets api lower)); [| reflexivity | done].
    cbn [fst params]. rewrite (handle_tweets_miss _ _ _ Hname Hmiss). cbn zeta.
    split; [| split].
    + intros e ->. reflexivity.
    + intros user_result -> ->. cbn [fst].
      by rewrite <- caught_respond.
    + intros user_result d fresh -> Herr Hd Hid.
      unfold key_in, dict_getitem. rewrite Herr, Hd, Hid.
      unfold invoke. cbn [fst calls]. apply caught_respond.
Qed.

(** C7 (amended): every response of [execute] with [success = true] has its
    data set and its error unset; every response with [success = false] has
    its data unset, and its error set unless the handler returned a mapping
    whose [error] key holds [None].  When [execute] produces no response it
    is raising what [except Exception] does not catch. *)
Theorem execute_response_shape request w :
  (∃ r w', execute api vtext lower request w = (Returns r, w') ∧
     (success r = true → (∃ result, data r = Some result) ∧ error r = None) ∧
     (success r = false →
        data r = None ∧
        (error r = None →
           ∃ h result w1,
             handler_of (operation_map api lower) (operation request) = Some h ∧
             h (params request) w = (Returns result, w1) ∧
             dict_get result "error" = Some PNone))) ∨
  (∃ e w', execute api vtext lower request w = (Raises e, w') ∧
           is_exception e = false).
Proof.
  destruct (execute api vtext lower request w) as [[r | e] w'] eqn:Hrun.
  2:{ right. exists e, w'. split; [done |].
      rewrite execute_unfold in Hrun. injection Hrun as Hc _.
      by destruct (caught_raises _ _ Hc). }
  left. exists r, w'. split; [done |].
  destruct (execute_returns _ _ _ _ Hrun) as [Htry | (e & _ & _ & ->)];
    [| cbn; split; [done | intros _; split; [done | intros [=]]]].
  destruct (execute_try_returns _ _ _ _ Htry)
    as [(_ & -> & _) | (h & result & w1 & Hh & Hrunh & _ & Hresp)];
    [cbn; split; [done | intros _; split; [done | intros [=]]] |].
  rewrite respond_cases in Hresp.
  destruct (dict_get result "error") as [[] |] eqn:Herr;
    try discriminate; injection Hresp as <-; cbn;
    (split; [try done; eauto |]);
    intros Hs; try discriminate; (split; [done |]); intros He;
    try discriminate.
  eauto 10.
Qed.

(** ** The [tweets] operation *)

(** C3 (amended): when the lowercased username of a [tweets] operation is
    bound in the cache to a truthy identifier, [execute] makes exactly one
    call to the client, the user-tweets call with the cached identifier and
    [params.limit] (10 when absent); the user lookup is not called, and the
    cache is unchanged. *)
Theorem tweets_cache_hit p w name id :
  dict_get p "username" = Some (PStr name) →
  user_id_cache w !! lower name = Some id →
  truthy id = true →
  let call :=
    get_user_tweets id
      (match dict_get p "limit" with Some l => l | None => PInt 10 end) in
  execute api vtext lower {| operation := "tweets"; params := p |} w =
    (caught (match api (calls w) call with
             | Returns result => respond vtext result
             | Raises e => Raises e
             end),
     {| user_id_cache := user_id_cache w; calls := calls w ++ [call] |})
  ∧ is_user_lookup call = false.
Proof.
  intros Hname Hid Htrue call. split; [| reflexivity].
  rewrite (execute_non_user _ w (_handle_tweets api lower)); [| reflexivity | done].
  cbn [params]. rewrite (handle_tweets_hit _ _ _ _ Hname Hid Htrue).
  reflexivity.
Qed.

(** C5 (amended): when the username of a [tweets] operation misses the
    cache (the key is absent, or bound to a falsy value) and the inline user
    lookup returns a mapping with an [error] key, the handler returns that
    mapping itself, and [execute] turns it into a failure response without
    data whose error is the value under the key when that value is a string
    or [None], and the validation text otherwise; the only call made is the
    lookup (the user-tweets call is not made), and the cache is unchanged. *)
Theorem tweets_lookup_error p w name user_result :
  dict_get p "username" = Some (PStr name) →
  truthy (cached w (lower name)) = false →
  api (calls w) (get_user_info (PStr (lower name))) = Returns user_result →
  key_in "error" user_result = true →
  let w1 :=
    {| user_id_cache := user_id_cache w;
       calls := calls w ++ [get_user_info (PStr (lower name))] |} in
  _handle_tweets api lower p w = (Returns user_result, w1) ∧
  ∃ r, execute api vtext lower {| operation := "tweets"; params := p |} w
         = (Returns r, w1) ∧
       success r = false ∧ data r = None ∧
       error r = match dict_get user_result "error" with
                 | Some (PStr s) => Some s
                 | Some PNone | None => None
                 | Some v => Some (vtext v)
                 end.
Proof.
  intros Hname Hmiss Hapi Herr w1.
  assert (Hh : _handle_tweets api lower p w = (Returns user_result, w1)).
  { rewrite (handle_tweets_miss _ _ _ Hname Hmiss). cbn zeta.
    rewrite Hapi, Herr. reflexivity. }
  split; [exact Hh |].
  rewrite (execute_non_user _ w (_handle_tweets api lower)); [| reflexivity | done].
  cbn [params]. rewrite Hh. cbn [fst snd].
  rewrite respond_cases. unfold key_in in Herr.
  destruct (dict_get user_result "error") as [[] |]; try discriminate;
    eexists; (split; [reflexivity |]); repeat split; reflexivity.
Qed.

(** C10: when the lowercased username of a [tweets] operation is bound in
    the cache to a falsy identifier, [execute] calls the user lookup first;
    if the lookup returns a mapping without [error] whose data holds an
    identifier, the cache entry is overwritten with that identifier and the
    user-tweets call receives it; and whatever the lookup does, every
    user-tweets call made carries the identifier the lookup returned, never
    one read from the cache. *)
Theorem tweets_falsy_cached_id p w name stale :
  dict_get p "username" = Some (PStr name) →
  user_id_cache w !! lower name = Some stale →
  truthy stale = false →
  let lookup := get_user_info (PStr (lower name)) in
  let limit := dict_get_default p "limit" (PInt 10) in
  ∃ o w' rest,
    execute api vtext lower {| operation := "tweets"; params := p |} w = (o, w') ∧
    calls w' = calls w ++ lookup :: rest ∧
    (∀ user_result d fresh,
       api (calls w) lookup = Returns user_result →
       dict_get user_result "error" = None →
       dict_get user_result "data" = Some d →
       getitem d "id" = Returns fresh →
       user_id_cache w' = <[lower name := fresh]> (user_id_cache w) ∧
       rest = [get_user_tweets fresh limit]) ∧
    (∀ c, c ∈ rest →
       ∃ user_result d fresh,
         api (calls w) lookup = Returns user_result ∧
         dict_get user_result "data" = Some d ∧
         getitem d "id" = Returns fresh ∧
         c = get_user_tweets fresh limit).
Proof.
  intros Hname Hstale Hfalsy lookup limit.
  assert (Hmiss : truthy (cached w (lower name)) = false).
  { unfold cached. by rewrite Hstale. }
  rewrite (execute_non_user _ w (_handle_tweets api lower)); [| reflexivity | done].
  cbn [params]. rewrite (handle_tweets_miss _ _ _ Hname Hmiss). cbn zeta.
  fold lookup. fold limit.
  destruct (api (calls w) lookup) as [user_result | e] eqn:Hapi.
  - unfold key_in, dict_getitem.
    destruct (dict_get user_result "error") as [v |] eqn:Herr.
    { eexists _, _, []. split; [reflexivity |]. cbn [snd calls].
      split; [reflexivity |]. split; [intros; simplify_eq; congruence |].
      intros c Hc. by apply elem_of_nil in Hc. }
    destruct (dict_get user_result "data") as [d |] eqn:Hd.
    2:{ eexists _, _, []. split; [reflexivity |]. cbn [snd calls].
        split; [reflexivity |]. split; [intros; simplify_eq; congruence |].
        intros c Hc. by apply elem_of_nil in Hc. }
    destruct (getitem d "id") as [fresh | e] eqn:Hid.
    2:{ eexists _, _, []. split; [reflexivity |]. cbn [snd calls].
        split; [reflexivity |]. split; [intros; simplify_eq; congruence |].
        intros c Hc. by apply elem_of_nil in Hc. }
    unfold invoke. cbn [calls user_id_cache].
    eexists _, _, [get_user_tweets fresh limit].
    split; [reflexivity |]. cbn [snd calls user_id_cache].
    split; [by rewrite <- app_assoc |].
    split; [intros ? d' fresh' [= <-] _ Hd' Hid'; rewrite Hd in Hd';
            injection Hd' as <-; rewrite Hid in Hid';
            injection Hid' as <-; done |].
    intros c Hc. apply list_elem_of_singleton in Hc as ->. eauto 10.
  - eexists _, _, []. split; [reflexivity |]. cbn [snd calls].
    split; [reflexivity |]. split; [intros; simplify_eq; congruence |].
    intros c Hc. by apply elem_of_nil in Hc.
Qed.

(** ** The [user] operation *)

Lemma execute_user_success request w r w' :
  operation request = "user" →
  execute api vtext lower request w = (Returns r, w') →
  success r = true →
  ∃ v result,
    dict_get (params request) "username" = Some v ∧
    api (calls w) (get_user_info v) = Returns result ∧
    dict_get result "error" = None ∧
    r = {| success := true; data := Some result; error := None |} ∧
    cache_user_id lower request result
      {| user_id_cache := user_id_cache w;
         calls := calls w ++ [get_user_info v] |} = (Returns tt, w').
Proof.
  destruct request as [op p]. cbn [operation params]. intros -> Hrun Hok.
  destruct (execute_returns _ _ _ _ Hrun) as [Htry | (e & _ & _ & ->)];
    [| discriminate].
  destruct (execute_try_returns _ _ _ _ Htry)
    as [(_ & -> & _) | (h & result & w1 & Hh & Hrunh & Hcache & Hresp)];
    [discriminate |].
  cbn [handler_of operation_map operation params String.eqb Ascii.eqb Bool.eqb]
    in Hh.
  injection Hh as <-. cbn [params] in Hrunh.
  unfold bind, lift, dict_getitem, invoke in Hrunh.
  destruct (dict_get p "username") as [v |] eqn:Hv; [| discriminate].
  destruct (api (calls w) (get_user_info v)) as [result' | e] eqn:Hapi;
    [| discriminate].
  injection Hrunh as -> <-.
  rewrite respond_cases in Hresp.
  destruct (dict_get result "error") as [[] |] eqn:Herr;
    try discriminate; injection Hresp as <-; try discriminate.
  exists v, result. eauto 10.
Qed.

(** C4 (amended): when a [user] operation whose username is a non-empty
    string succeeds and the [data] entry of its result is a mapping holding
    an [id], the cache afterwards is the old cache with the lowercased
    username bound to that identifier; so every spelling of the username
    that lowercases to the same string reads that identifier. *)
Theorem user_success_caches_id request w r w' name result d id :
  operation request = "user" →
  dict_get (params request) "username" = Some (PStr name) →
  name ≠ "" →
  execute api vtext lower request w = (Returns r, w') →
  success r = true →
  data r = Some result →
  dict_get result "data" = Some (PDict d) →
  dict_get d "id" = Some id →
  user_id_cache w' = <[lower name := id]> (user_id_cache w) ∧
  ∀ name2, lower name2 = lower name →
    user_id_cache w' !! lower name2 = Some id.
Proof.
  intros Hop Hname Hne Hrun Hok Hdata Hd Hid.
  destruct (execute_user_success _ _ _ _ Hop Hrun Hok)
    as (v & result' & Hv & _ & Herr & -> & Hcache).
  cbn [data] in Hdata. simplify_eq.
  unfold cache_user_id, key_in, dict_get_default in Hcache.
  rewrite Hop, Herr, Hd, Hname in Hcache. cbn [String.eqb Ascii.eqb Bool.eqb
    negb andb truthy] in Hcache.
  destruct (String.eqb_spec name ""); [done |].
  unfold_monad. unfold dict_getitem in Hcache. rewrite Hd in Hcache.
  cbn [contains getitem py_lower] in Hcache.
  unfold key_in, dict_getitem in Hcache. rewrite Hid in Hcache.
  simplify_eq/=. split; [reflexivity |].
  intros name2 ->. apply lookup_insert_eq.
Qed.

End DispatcherFacts.

(** * Effects of a dispatch on the cache and the call log *)

Lemma operation_cases (op : string) :
  op ∉ known_operations ∨
  op = "user" ∨ op = "tweets" ∨ op = "search" ∨ op = "post" ∨ op = "like" ∨
  op = "unlike" ∨ op = "timeline" ∨ op = "delete".
Proof.
  destruct (decide (op ∈ known_operations)) as [Hin | Hout]; [right | by left].
  unfold known_operations in Hin.
  repeat (apply elem_of_cons in Hin as [-> | Hin]; [tauto |]).
  by apply elem_of_nil in Hin.
Qed.

Section DispatcherEffects.

Variable api : list api_call -> api_call -> outcome pydict.
Variable vtext : pyval -> string.
Variable lower : string -> string.

Ltac run_monad :=
  unfold bind, try_except, lift, mreturn, mraise, invoke, cache_get, cache_set in *.

Lemma execute_world request w :
  snd (execute api vtext lower request w) = snd (execute_try api vtext lower request w).
Proof. by rewrite execute_unfold. Qed.

(** What the caching statement does to the state: nothing, or one binding
    under the lowercased username, and then it has completed. *)
Lemma cache_user_id_effect request result w :
  snd (cache_user_id lower request result w) = w ∨
  ∃ name d id,
    operation request = "user" ∧
    dict_get (params request) "username" = Some (PStr name) ∧
    name ≠ "" ∧
    dict_get result "error" = None ∧
    dict_get result "data" = Some d ∧
    getitem d "id" = Returns id ∧
    cache_user_id lower request result w =
      (Returns tt,
       {| user_id_cache := <[lower name := id]> (user_id_cache w);
          calls := calls w |}).
Proof.
  unfold cache_user_id, key_in, dict_get_default.
  destruct (String.eqb_spec (operation request) "user") as [Hop |];
    [| by left].
  destruct (dict_get result "error") eqn:Herr; [by left |].
  destruct (dict_get result "data") as [d |] eqn:Hd; [| by left].
  cbn [negb andb]. run_monad. unfold dict_getitem. rewrite Hd.
  destruct (dict_get (params request) "username") as [u |] eqn:Hu;
    [| by left].
  destruct (truthy u) eqn:Htrue; [| by left].
  destruct (contains "id" d) as [[] | e]; [| by left | by left].
  destruct (getitem d "id") as [id | e] eqn:Hid; [| by left].
  destruct u as [| | | name | |]; try by left.
  right. exists name, d, id. repeat split; try done.
  intros ->. discriminate.
Qed.

Lemma effect_of_handler request w h o w' :
  handler_of (operation_map api lower) (operation request) = Some h →
  operation request ≠ "user" →
  (∀ o1 w1, h (params request) w = (o1, w1) → ∀ o2, effect lower request w o2 w1) →
  execute api vtext lower request w = (o, w') →
  effect lower request w o w'.
Proof.
  intros Hh Hop Heff. rewrite (execute_non_user _ _ _ _ _ h Hh Hop).
  destruct (h (params request) w) as [o1 w1] eqn:Hrun.
  intros [= <- <-]. by eapply Heff.
Qed.

Lemma execute_effect request w o w' :
  execute api vtext lower request w = (o, w') → effect lower request w o w'.
Proof.
  intros Hrun.
  destruct (operation_cases (operation request))
    as [Hout | [Hop | [Hop | Hop]]].
  - rewrite execute_unfold in Hrun. unfold execute_try in Hrun.
    rewrite (handler_of_unknown _ _ _ Hout) in Hrun.
    injection Hrun as <- <-. constructor.
  - (* user *)
    destruct request as [op p]. cbn [operation] in Hop. subst op.
    destruct (dict_get p "username") as [v |] eqn:Hv.
    2:{ rewrite execute_unfold in Hrun. unfold execute_try in Hrun.
        cbn [handler_of operation_map operation params String.eqb Ascii.eqb
             Bool.eqb] in Hrun.
        unfold bind, lift, dict_getitem in Hrun. rewrite Hv in Hrun.
        injection Hrun as <- <-. constructor. }
    rewrite (execute_user_call _ _ _ _ _ _ Hv) in Hrun.
    destruct (api (calls w) (get_user_info v)) as [result | e];
      [| injection Hrun as <- <-; by apply effect_call].
    cbn zeta in Hrun.
    destruct (cache_user_id_effect {| operation := "user"; params := p |} result
                {| user_id_cache := user_id_cache w;
                   calls := calls w ++ [get_user_info v] |})
      as [Hsame | (name & d & id & _ & Hname & Hne & Herr & _ & _ & Hset)].
    + rewrite Hsame in Hrun. injection Hrun as <- <-. by apply effect_call.
    + cbn [params] in Hname. rewrite Hset in Hrun. cbn [fst snd] in Hrun.
      rewrite respond_cases, Herr in Hrun.
      injection Hrun as <- <-. simplify_eq.
      by apply (effect_user_cached _ _ _ name id result).
  - (* tweets *)
    apply (effect_of_handler _ _ (_handle_tweets api lower) _ _);
      [by rewrite Hop | by rewrite Hop | | done].
    clear Hrun. intros o1 w1 Hrun o2.
    destruct (dict_get (params request) "username") as [u |] eqn:Hu.
    2:{ unfold _handle_tweets in Hrun. run_monad. unfold dict_getitem in Hrun.
        rewrite Hu in Hrun. injection Hrun as _ <-. constructor. }
    destruct u as [| | | name | |];
      try (unfold _handle_tweets in Hrun; run_monad;
           unfold dict_getitem in Hrun; rewrite Hu in Hrun;
           injection Hrun as _ <-; constructor).
    destruct (truthy (cached w (lower name))) eqn:Hcached.
    + unfold cached in Hcached.
      destruct (user_id_cache w !! lower name) as [id |] eqn:Hid;
        [| discriminate].
      rewrite (handle_tweets_hit _ _ _ _ _ _ Hu Hid Hcached) in Hrun.
      unfold invoke in Hrun. injection Hrun as _ <-.
      apply effect_call. eauto 10.
    + rewrite (handle_tweets_miss _ _ _ _ _ Hu Hcached) in Hrun. cbn zeta in Hrun.
      destruct (api (calls w) _) as [user_result | e];
        [| injection Hrun as _ <-; by apply effect_call].
      destruct (key_in "error" user_result);
        [injection Hrun as _ <-; by apply effect_call |].
      destruct (dict_getitem user_result "data") as [d | e];
        [| injection Hrun as _ <-; by apply effect_call].
      destruct (getitem d "id") as [id | e];
        [| injection Hrun as _ <-; by apply effect_call].
      unfold invoke in Hrun. cbn [calls user_id_cache] in Hrun.
      injection Hrun as _ <-. rewrite <- app_assoc.
      by apply effect_tweets_cached.
  - (* the remaining kinds: at most one call *)
    assert (Hnu : operation request ≠ "user")
      by (intros Heq; rewrite Heq in Hop; intuition discriminate).
    assert (Hnt : operation request ≠ "tweets")
      by (intros Heq; rewrite Heq in Hop; intuition discriminate).
    destruct request as [op p]. cbn [operation] in *.
    destruct Hop as [-> | [-> | [-> | [-> | [-> | ->]]]]];
      (eapply effect_of_handler; [reflexivity | done | | exact Hrun]);
      clear Hrun; cbn [params operation]; intros o1 w1 Hrun o2; run_monad;
      unfold dict_getitem in Hrun;
      repeat match type of Hrun with
             | context [match dict_get p ?k with _ => _ end] =>
                 destruct (dict_get p k)
             end;
      injection Hrun as _ <-;
      first [apply effect_none
            | apply effect_call; cbn [operation]; intros [=]].
Qed.

(** X1: [execute] never removes a cache entry and writes at most one: the
    cache afterwards is the cache before, or the cache before with one
    binding under the lowercased username of a [user] or [tweets]
    operation. *)
Theorem execute_writes_one_entry request w :
  let w' := snd (execute api vtext lower request w) in
  (∀ k, is_Some (user_id_cache w !! k) → is_Some (user_id_cache w' !! k)) ∧
  (user_id_cache w' = user_id_cache w ∨
   ∃ name id,
     (operation request = "user" ∨ operation request = "tweets") ∧
     dict_get (params request) "username" = Some (PStr name) ∧
     user_id_cache w' = <[lower name := id]> (user_id_cache w)).
Proof.
  cbn zeta. destruct (execute api vtext lower request w) as [o w'] eqn:Hrun.
  cbn [snd]. destruct (execute_effect _ _ _ _ Hrun); cbn [user_id_cache].
  - split; [done | by left].
  - split; [done | by left].
  - split; [| right; eauto 10].
    intros k Hk. destruct (decide (lower name = k)) as [<- | Hne].
    + rewrite lookup_insert_eq. eauto.
    + by rewrite lookup_insert_ne.
  - split; [| right; eauto 10].
    intros k Hk. destruct (decide (lower name = k)) as [<- | Hne].
    + rewrite lookup_insert_eq. eauto.
    + by rewrite lookup_insert_ne.
Qed.

(** X2: [execute] only appends to the log of client calls, and appends at
    most two calls; two calls are made by a [tweets] operation only, and
    they are the user lookup for the lowercased username followed by the
    user-tweets call. *)
Theorem execute_call_bound request w :
  let w' := snd (execute api vtext lower request w) in
  ∃ new,
    calls w' = calls w ++ new ∧
    (new = [] ∨ (∃ c, new = [c]) ∨
     ∃ name id,
       operation request = "tweets" ∧
       dict_get (params request) "username" = Some (PStr name) ∧
       new = [get_user_info (PStr (lower name));
              get_user_tweets id
                (dict_get_default (params request) "limit" (PInt 10))]).
Proof.
  cbn zeta. destruct (execute api vtext lower request w) as [o w'] eqn:Hrun.
  cbn [snd]. destruct (execute_effect _ _ _ _ Hrun); cbn [calls].
  - exists []. split; [by rewrite app_nil_r | by left].
  - eexists. split; [reflexivity |]. right; left. eauto.
  - eexists. split; [reflexivity |]. right; left. eauto.
  - eexists. split; [reflexivity |]. right; right. eauto 10.
Qed.

(** X3: a [user] operation that ends in a failure response leaves the cache
    exactly as it was. *)
Theorem failed_user_keeps_cache request w r w' :
  operation request = "user" →
  execute api vtext lower request w = (Returns r, w') →
  success r = false →
  user_id_cache w' = user_id_cache w.
Proof.
  intros Hop Hrun Hfail.
  pose proof (execute_effect _ _ _ _ Hrun) as Heff.
  inversion Heff; subst; cbn [user_id_cache]; try done.
  congruence.
Qed.

(** X4: an entry of the cache that holds a truthy identifier is changed by
    no operation other than a [user] operation that succeeds. *)
Theorem execute_keeps_truthy_ids request w r w' k id :
  execute api vtext lower request w = (Returns r, w') →
  operation request ≠ "user" ∨ success r = false →
  user_id_cache w !! k = Some id →
  truthy id = true →
  user_id_cache w' !! k = Some id.
Proof.
  intros Hrun Hcond Hk Htrue.
  pose proof (execute_effect _ _ _ _ Hrun) as Heff.
  inversion Heff as [| | name id' result Hop Hname Hne | ? name id' Hop Hname Hmiss];
    subst; cbn [user_id_cache]; try done.
  - destruct Hcond as [Hnu | Hfail]; [done | discriminate].
  - rewrite lookup_insert_ne; [done |].
    intros Heq. unfold cached in Hmiss. rewrite Heq, Hk in Hmiss. congruence.
Qed.

(** X5: the dispatcher only ever stores keys it obtained from [str.lower]:
    if every key of the cache is the lowercase form of some string before
    [execute], the same holds afterwards. *)
Theorem execute_keeps_keys_lowercase request w :
  (∀ k, is_Some (user_id_cache w !! k) → ∃ s, k = lower s) →
  ∀ k, is_Some (user_id_cache (snd (execute api vtext lower request w)) !! k) →
       ∃ s, k = lower s.
Proof.
  intros Hinv k.
  destruct (execute api vtext lower request w) as [o w'] eqn:Hrun. cbn [snd].
  destruct (execute_effect _ _ _ _ Hrun); cbn [user_id_cache]; try by auto.
  - destruct (decide (lower name = k)) as [<- | Hne];
      [by eexists | rewrite lookup_insert_ne by done; auto].
  - destruct (decide (lower name = k)) as [<- | Hne];
      [by eexists | rewrite lookup_insert_ne by done; auto].
Qed.

(** X6: whenever a [tweets] operation calls the user-tweets endpoint, the
    identifier it passes is the one the cache holds for the lowercased
    username once [execute] is done, and the limit is [params.limit] or
    10. *)
Theorem tweets_call_uses_cached_id request w new id limit :
  operation request = "tweets" →
  calls (snd (execute api vtext lower request w)) = calls w ++ new →
  get_user_tweets id limit ∈ new →
  ∃ name,
    dict_get (params request) "username" = Some (PStr name) ∧
    user_id_cache (snd (execute api vtext lower request w)) !! lower name = Some id ∧
    limit = dict_get_default (params request) "limit" (PInt 10).
Proof.
  intros Hop.
  destruct (execute api vtext lower request w) as [o w'] eqn:Hrun. cbn [snd].
  destruct (execute_effect _ _ _ _ Hrun) as [| o c Hc | |]; cbn [calls user_id_cache];
    intros Hnew Hin.
  - rewrite <- (app_nil_r (calls w)) in Hnew at 1.
    apply app_inv_head in Hnew as <-. by apply elem_of_nil in Hin.
  - apply app_inv_head in Hnew as <-.
    apply list_elem_of_singleton in Hin. subst c.
    destruct (Hc Hop eq_refl) as (name & id' & Hname & Hid & _ & [= -> ->]).
    eauto.
  - congruence.
  - apply app_inv_head in Hnew as <-.
    apply elem_of_cons in Hin as [[=] | Hin].
    apply list_elem_of_singleton in Hin as [= -> ->].
    eexists. split; [done |]. by rewrite lookup_insert_eq.
Qed.

(** ** Operations in sequence *)

Lemma execute_tweets_hit_run p w name id :
  dict_get p "username" = Some (PStr name) →
  user_id_cache w !! lower name = Some id →
  truthy id = true →
  execute api vtext lower {| operation := "tweets"; params := p |} w =
    single_call_run api vtext w
      (get_user_tweets id (dict_get_default p "limit" (PInt 10))).
Proof.
  intros Hname Hid Htrue.
  rewrite (execute_non_user _ _ _ _ w (_handle_tweets api lower)); [| reflexivity | done].
  cbn [params]. rewrite (handle_tweets_hit _ _ _ _ _ _ Hname Hid Htrue).
  unfold invoke, single_call_run. by destruct (api (calls w) _).
Qed.

Lemma execute_tweets_miss_world p w name user_result d id :
  dict_get p "username" = Some (PStr name) →
  truthy (cached w (lower name)) = false →
  api (calls w) (get_user_info (PStr (lower name))) = Returns user_result →
  dict_get user_result "error" = None →
  dict_get user_result "data" = Some d →
  getitem d "id" = Returns id →
  snd (execute api vtext lower {| operation := "tweets"; params := p |} w) =
    {| user_id_cache := <[lower name := id]> (user_id_cache w);
       calls := calls w ++
                  [get_user_info (PStr (lower name));
                   get_user_tweets id (dict_get_default p "limit" (PInt 10))] |}.
Proof.
  intros Hname Hmiss Hapi Herr Hd Hid.
  rewrite (execute_non_user _ _ _ _ w (_handle_tweets api lower)); [| reflexivity | done].
  cbn [params]. rewrite (handle_tweets_miss _ _ _ _ _ Hname Hmiss). cbn zeta.
  rewrite Hapi. unfold key_in, dict_getitem. rewrite Herr, Hd, Hid.
  unfold invoke. cbn [calls user_id_cache]. rewrite <- app_assoc.
  by destruct (api _ (get_user_tweets _ _)).
Qed.

Lemma execute_user_run p w name result d id :
  dict_get p "username" = Some (PStr name) →
  name ≠ "" →
  api (calls w) (get_user_info (PStr name)) = Returns result →
  dict_get result "error" = None →
  dict_get result "data" = Some (PDict d) →
  dict_get d "id" = Some id →
  execute api vtext lower {| operation := "user"; params := p |} w =
    (Returns {| success := true; data := Some result; error := None |},
     {| user_id_cache := <[lower name := id]> (user_id_cache w);
        calls := calls w ++ [get_user_info (PStr name)] |}).
Proof.
  intros Hname Hne Hapi Herr Hd Hid.
  rewrite (execute_user_call _ _ _ _ _ _ Hname), Hapi. cbn zeta.
  assert (Hcache :
    cache_user_id lower {| operation := "user"; params := p |} result
      {| user_id_cache := user_id_cache w;
         calls := calls w ++ [get_user_info (PStr name)] |}
    = (Returns tt,
       {| user_id_cache := <[lower name := id]> (user_id_cache w);
          calls := calls w ++ [get_user_info (PStr name)] |})).
  { unfold cache_user_id, key_in, dict_get_default.
    cbn [operation params String.eqb Ascii.eqb Bool.eqb].
    rewrite Herr, Hd, Hname. cbn [negb andb truthy].
    destruct (String.eqb_spec name ""); [done |]. cbn [negb].
    run_monad. unfold dict_getitem. rewrite Hd. cbn [contains getitem py_lower].
    unfold key_in, dict_getitem. by rewrite Hid. }
  rewrite Hcache. cbn [fst snd]. by rewrite respond_cases, Herr.
Qed.

(** X7: after a [tweets] operation that missed the cache and whose lookup
    returned a truthy identifier, a [tweets] operation for any spelling of
    the same username makes one call only, the user-tweets call with that
    identifier, and leaves the cache as it is. *)
Theorem tweets_miss_then_hit p p2 w name name2 user_result d id :
  dict_get p "username" = Some (PStr name) →
  truthy (cached w (lower name)) = false →
  api (calls w) (get_user_info (PStr (lower name))) = Returns user_result →
  dict_get user_result "error" = None →
  dict_get user_result "data" = Some d →
  getitem d "id" = Returns id →
  truthy id = true →
  dict_get p2 "username" = Some (PStr name2) →
  lower name2 = lower name →
  let w1 := snd (execute api vtext lower {| operation := "tweets"; params := p |} w) in
  let w2 := snd (execute api vtext lower {| operation := "tweets"; params := p2 |} w1) in
  user_id_cache w2 = user_id_cache w1 ∧
  calls w2 =
    calls w1 ++ [get_user_tweets id (dict_get_default p2 "limit" (PInt 10))].
Proof.
  intros Hname Hmiss Hapi Herr Hd Hid Htrue Hname2 Hlower. cbn zeta.
  rewrite (execute_tweets_miss_world _ _ _ _ _ _ Hname Hmiss Hapi Herr Hd Hid).
  rewrite (execute_tweets_hit_run p2 _ name2 id Hname2); [done | | done].
  cbn [user_id_cache]. rewrite Hlower. apply lookup_insert_eq.
Qed.

(** X8: after a [user] operation for a non-empty username whose lookup
    returned data holding a truthy [id], a [tweets] operation for any
    spelling of that username calls the user-tweets endpoint with that
    identifier and makes no lookup. *)
Theorem user_then_tweets p p2 w name name2 result d id :
  dict_get p "username" = Some (PStr name) →
  name ≠ "" →
  api (calls w) (get_user_info (PStr name)) = Returns result →
  dict_get result "error" = None →
  dict_get result "data" = Some (PDict d) →
  dict_get d "id" = Some id →
  truthy id = true →
  dict_get p2 "username" = Some (PStr name2) →
  lower name2 = lower name →
  let w1 := snd (execute api vtext lower {| operation := "user"; params := p |} w) in
  let w2 := snd (execute api vtext lower {| operation := "tweets"; params := p2 |} w1) in
  user_id_cache w2 = <[lower name := id]> (user_id_cache w) ∧
  calls w2 =
    calls w ++ [get_user_info (PStr name);
                get_user_tweets id (dict_get_default p2 "limit" (PInt 10))].
Proof.
  intros Hname Hne Hapi Herr Hd Hid Htrue Hname2 Hlower. cbn zeta.
  rewrite (execute_user_run _ _ _ _ _ _ Hname Hne Hapi Herr Hd Hid). cbn [snd].
  rewrite (execute_tweets_hit_run p2 _ name2 id Hname2); [| | done].
  - cbn [single_call_run snd user_id_cache calls]. by rewrite <- app_assoc.
  - cbn [user_id_cache]. rewrite Hlower. apply lookup_insert_eq.
Qed.

(** X9: storing an identifier again is harmless: a second [user] operation
    for any spelling of the username whose lookup returns the same
    identifier leaves the cache as the first one left it. *)
Theorem user_twice_same_cache p p2 w name name2 result result2 d d2 id :
  dict_get p "username" = Some (PStr name) →
  name ≠ "" →
  api (calls w) (get_user_info (PStr name)) = Returns result →
  dict_get result "error" = None →
  dict_get result "data" = Some (PDict d) →
  dict_get d "id" = Some id →
  dict_get p2 "username" = Some (PStr name2) →
  name2 ≠ "" →
  lower name2 = lower name →
  api (calls w ++ [get_user_info (PStr name)]) (get_user_info (PStr name2))
    = Returns result2 →
  dict_get result2 "error" = None →
  dict_get result2 "data" = Some (PDict d2) →
  dict_get d2 "id" = Some id →
  let w1 := snd (execute api vtext lower {| operation := "user"; params := p |} w) in
  let w2 := snd (execute api vtext lower {| operation := "user"; params := p2 |} w1) in
  user_id_cache w2 = user_id_cache w1.
Proof.
  intros Hname Hne Hapi Herr Hd Hid Hname2 Hne2 Hlower Hapi2 Herr2 Hd2 Hid2.
  cbn zeta.
  rewrite (execute_user_run _ _ _ _ _ _ Hname Hne Hapi Herr Hd Hid). cbn [snd].
  rewrite (execute_user_run p2 _ name2 result2 d2 id Hname2 Hne2); try done.
  cbn [snd user_id_cache]. rewrite Hlower. apply insert_insert_eq.
Qed.

(** X10: with its required parameter present, each kind other than [user]
    and [tweets] makes exactly one call to the client, with [limit]
    defaulting to 10 for [search] and to 20 for [timeline] and the two
    optional parameters of [post] defaulting to [None]; the response is the
    normalised answer to that call and the cache is unchanged.  [timeline]
    has no required parameter. *)
Theorem execute_single_call p w :
  (∀ v, dict_get p "query" = Some v →
     execute api vtext lower {| operation := "search"; params := p |} w =
       single_call_run api vtext w
         (search_tweets v (dict_get_default p "limit" (PInt 10)))) ∧
  (∀ v, dict_get p "text" = Some v →
     execute api vtext lower {| operation := "post"; params := p |} w =
       single_call_run api vtext w
         (create_tweet v (dict_get_default p "media_path" PNone)
            (dict_get_default p "reply_to_id" PNone))) ∧
  (∀ v, dict_get p "tweet_id" = Some v →
     execute api vtext lower {| operation := "like"; params := p |} w =
       single_call_run api vtext w (like_tweet v)) ∧
  (∀ v, dict_get p "tweet_id" = Some v →
     execute api vtext lower {| operation := "unlike"; params := p |} w =
       single_call_run api vtext w (unlike_tweet v)) ∧
  (∀ v, dict_get p "tweet_id" = Some v →
     execute api vtext lower {| operation := "delete"; params := p |} w =
       single_call_run api vtext w (delete_tweet v)) ∧
  execute api vtext lower {| operation := "timeline"; params := p |} w =
    single_call_run api vtext w
      (get_home_timeline (dict_get_default p "limit" (PInt 20))).
Proof.
  repeat split; intros;
    (erewrite execute_non_user; [| reflexivity | done]);
    cbn [params]; run_monad; unfold dict_getitem, single_call_run;
    repeat match goal with H : dict_get _ _ = Some _ |- _ => rewrite H end;
    by destruct (api (calls w) _).
Qed.

(** ** Edge cases of the [tweets] operation *)

(** X20: a [tweets] operation whose [username] is present but is not a
    string fails before any call to the client: the response is a failure
    carrying the text of the [AttributeError] of [lower], and the state is
    unchanged. *)
Theorem tweets_non_string_username p w v :
  dict_get p "username" = Some v →
  (∀ s, v ≠ PStr s) →
  execute api vtext lower {| operation := "tweets"; params := p |} w =
    (Returns (failure (Some ("'" +:+ type_name v
                               +:+ "' object has no attribute 'lower'"))), w).
Proof.
  intros Hname Hstr.
  rewrite (execute_non_user _ _ _ _ w (_handle_tweets api lower)); [| reflexivity | done].
  cbn [params]. unfold _handle_tweets, bind, lift, dict_getitem.
  rewrite Hname. destruct v; try reflexivity. by destruct (Hstr s).
Qed.

(** X21: a [tweets] operation that misses the cache and whose lookup returns
    a mapping with neither an [error] nor a [data] key fails with the text
    of the [KeyError] for [data]; the lookup is the only call made and the
    cache is unchanged. *)
Theorem tweets_lookup_without_data p w name user_result :
  dict_get p "username" = Some (PStr name) →
  truthy (cached w (lower name)) = false →
  api (calls w) (get_user_info (PStr (lower name))) = Returns user_result →
  dict_get user_result "error" = None →
  dict_get user_result "data" = None →
  execute api vtext lower {| operation := "tweets"; params := p |} w =
    (Returns (failure (Some "'data'")),
     {| user_id_cache := user_id_cache w;
        calls := calls w ++ [get_user_info (PStr (lower name))] |}).
Proof.
  intros Hname Hmiss Hapi Herr Hd.
  rewrite (execute_non_user _ _ _ _ w (_handle_tweets api lower)); [| reflexivity | done].
  cbn [params]. rewrite (handle_tweets_miss _ _ _ _ _ Hname Hmiss). cbn zeta.
  rewrite Hapi. unfold key_in, dict_getitem. by rewrite Herr, Hd.
Qed.

End DispatcherEffects.

(** * Properties of the translator *)

Section TranslatorFacts.

Variable chat : nat -> list pydict -> string -> outcome chat_response.
Variable json_loads : string -> pyval + string.
Variable rtext : pyval -> string.

(** The replies the loop retries on: no usable content, content that does
    not decode, and a decoded value of the wrong shape. *)
Lemma read_reply_empty r :
  r = NoResponse ∨ r = NoMessage ∨ r = Message None ∨ r = Message (Some "") →
  read_reply json_loads rtext (Returns r)
    = Raises (Exn ValueError "Invalid response format from Ollama").
Proof. intros [-> | [-> | [-> | ->]]]; reflexivity. Qed.

Lemma read_reply_undecodable content e :
  content ≠ "" →
  json_loads content = inr e →
  read_reply json_loads rtext (Returns (Message (Some content)))
    = Raises (Exn ValueError ("Failed to parse JSON response: " +:+ e)).
Proof.
  intros Hne He. cbn [read_reply].
  destruct (String.eqb_spec content ""); [done |]. by rewrite He.
Qed.

Lemma read_reply_wrong_shape content v :
  content ≠ "" →
  json_loads content = inl v →
  (∀ d op p, v = PDict d → dict_get d "operation" = Some (PStr op) →
             dict_get d "params" = Some (PDict p) → False) →
  ∃ e, read_reply json_loads rtext (Returns (Message (Some content))) = Raises e
       ∧ is_exception e = true.
Proof.
  intros Hne Hv Hshape. cbn [read_reply].
  destruct (String.eqb_spec content ""); [done |]. rewrite Hv.
  unfold TwitterRequest_new.
  destruct v as [| | | | | d]; try by eexists.
  destruct (dict_get d "operation") as [[| | | op | |] |] eqn:Hop;
    try by eexists.
  destruct (dict_get d "params") as [[| | | | | p] |] eqn:Hp; try by eexists.
  destruct (Hshape d op p eq_refl Hop Hp).
Qed.

Lemma read_reply_valid content d op p :
  content ≠ "" →
  json_loads content = inl (PDict d) →
  dict_get d "operation" = Some (PStr op) →
  dict_get d "params" = Some (PDict p) →
  read_reply json_loads rtext (Returns (Message (Some content)))
    = Returns {| operation := op; params := p |}.
Proof.
  intros Hne Hv Hop Hp. cbn [read_reply].
  destruct (String.eqb_spec content ""); [done |]. rewrite Hv.
  unfold TwitterRequest_new. by rewrite Hop, Hp.
Qed.

Lemma invalid_output_rejected r :
  invalid_output json_loads r →
  ∃ e, read_reply json_loads rtext (Returns r) = Raises e ∧
       is_exception e = true.
Proof.
  intros [| | | | content e Hne He | content v Hne Hv Hshape];
    try (rewrite read_reply_empty by tauto; by eexists).
  - rewrite (read_reply_undecodable _ _ Hne He). by eexists.
  - by apply (read_reply_wrong_shape content v).
Qed.

Lemma valid_output_accepted r request :
  valid_output json_loads r request →
  read_reply json_loads rtext (Returns r) = Returns request.
Proof. intros [content d op p Hne Hv Hop Hp]. by apply (read_reply_valid _ d). Qed.

Lemma retry_loop_valid msgs model max_retries k :
  ∀ remaining attempt n request,
    (k < remaining)%nat →
    attempt + Z.of_nat remaining = max_retries →
    (∀ i, (i < k)%nat →
       ∃ e, invalid_reply chat json_loads rtext msgs model (n + i) e) →
    read_reply json_loads rtext (chat (n + k)%nat msgs model) = Returns request →
    retry_loop chat json_loads rtext msgs model max_retries remaining attempt n
      = (Returns (Some request), (n + S k)%nat).
Proof.
  induction k as [| k IH]; intros remaining attempt n request Hk Hinv Hbad Hgood.
  - destruct remaining as [| remaining]; [lia |]. cbn [retry_loop].
    rewrite Nat.add_0_r in Hgood. rewrite Hgood. f_equal. lia.
  - destruct remaining as [| remaining]; [lia |]. cbn [retry_loop].
    destruct (Hbad 0%nat) as (e & He & Hexn); [lia |].
    rewrite Nat.add_0_r in He. rewrite He, Hexn. cbn [negb].
    destruct (Z.eqb_spec attempt (max_retries - 1)); [lia |].
    rewrite (IH remaining (attempt + 1) (S n) request).
    + f_equal. lia.
    + lia.
    + lia.
    + intros i Hi. destruct (Hbad (S i)) as [e' He']; [lia |].
      exists e'. unfold invalid_reply in *.
      by replace (S n + i)%nat with (n + S i)%nat by lia.
    + by replace (S n + k)%nat with (n + S k)%nat by lia.
Qed.

Lemma retry_loop_exhausted msgs model max_retries remaining :
  ∀ attempt n,
    (0 < remaining)%nat →
    attempt + Z.of_nat remaining = max_retries →
    (∀ i, (i < remaining)%nat →
       ∃ e, invalid_reply chat json_loads rtext msgs model (n + i) e) →
    ∃ e, invalid_reply chat json_loads rtext msgs model (n + remaining - 1) e ∧
      retry_loop chat json_loads rtext msgs model max_retries remaining attempt n
        = (Raises (Exn RuntimeError (failure_text max_retries e)),
           (n + remaining)%nat).
Proof.
  induction remaining as [| remaining IH]; intros attempt n Hpos Hinv Hbad;
    [lia |].
  cbn [retry_loop].
  destruct (Hbad 0%nat) as (e & He & Hexn); [lia |].
  rewrite Nat.add_0_r in He. rewrite He, Hexn. cbn [negb].
  destruct (Z.eqb_spec attempt (max_retries - 1)) as [Hlast | Hmore].
  - assert (remaining = 0%nat) as -> by lia.
    exists e. split.
    + unfold invalid_reply. by replace (n + 1 - 1)%nat with n by lia.
    + f_equal. lia.
  - destruct (IH (attempt + 1) (S n)) as (e' & He' & Hrun); [lia | lia | |].
    + intros i Hi. destruct (Hbad (S i)) as [e' He']; [lia |].
      exists e'. unfold invalid_reply in *.
      by replace (S n + i)%nat with (n + S i)%nat by lia.
    + exists e'. split.
      * unfold invalid_reply in *.
        by replace (n + S remaining - 1)%nat with (S n + remaining - 1)%nat by lia.
      * rewrite Hrun. f_equal. lia.
Qed.

(** X11: with no attempt to make, the loop body never runs: the function
    falls off its end and returns [None], without a call to the service. *)
Lemma process_nlp_request_no_attempt query context model max_retries n :
  max_retries <= 0 →
  process_nlp_request chat json_loads rtext query context model max_retries n
    = (Returns None, n).
Proof.
  intros Hle. unfold process_nlp_request.
  by replace (Z.to_nat max_retries) with 0%nat by lia.
Qed.

Lemma retry_loop_shape msgs model max_retries remaining :
  ∀ attempt n,
    (0 < remaining)%nat →
    attempt + Z.of_nat remaining = max_retries →
    ∃ j,
      (1 <= j <= remaining)%nat ∧
      snd (retry_loop chat json_loads rtext msgs model max_retries remaining
             attempt n) = (n + j)%nat ∧
      ((∃ request,
          fst (retry_loop chat json_loads rtext msgs model max_retries remaining
                 attempt n) = Returns (Some request)) ∨
       (j = remaining ∧
        ∃ e,
          fst (retry_loop chat json_loads rtext msgs model max_retries remaining
                 attempt n)
            = Raises (Exn RuntimeError (failure_text max_retries e))) ∨
       (∃ e,
          fst (retry_loop chat json_loads rtext msgs model max_retries remaining
                 attempt n) = Raises e ∧ is_exception e = false)).
Proof.
  induction remaining as [| remaining IH]; intros attempt n Hpos Hinv; [lia |].
  cbn [retry_loop].
  destruct (read_reply json_loads rtext (chat n msgs model)) as [request | e].
  - exists 1%nat. cbn [fst snd]. split; [lia |]. split; [lia |]. eauto.
  - destruct (is_exception e) eqn:Hexn; cbn [negb].
    2:{ exists 1%nat. cbn [fst snd]. split; [lia |]. split; [lia |].
        right; right. eauto. }
    destruct (Z.eqb_spec attempt (max_retries - 1)) as [Hlast | Hmore].
    + exists 1%nat. cbn [fst snd]. split; [lia |]. split; [lia |].
      right; left. split; [lia | eauto].
    + destruct (IH (attempt + 1) (S n)) as (j & Hj & Hn & Hout); [lia | lia |].
      exists (S j). split; [lia |]. split; [rewrite Hn; lia |].
      destruct Hout as [Hok | [[-> Hraise] | Hint]];
        [by left | right; by left | right; by right].
Qed.

Lemma translate_outcome_bound query context model max_retries n :
  1 <= max_retries →
  ∃ j,
    (1 <= j <= Z.to_nat max_retries)%nat ∧
    snd (process_nlp_request chat json_loads rtext query context model
           max_retries n) = (n + j)%nat.
Proof.
  intros Hpos. unfold process_nlp_request.
  destruct (retry_loop_shape (build_messages query context) model max_retries
              (Z.to_nat max_retries) 0 n) as (j & Hj & Hn & _); [lia | lia |].
  eauto.
Qed.

(** X12: with at least one attempt allowed, [process_nlp_request] invokes
    the model service at least once and at most [max_retries] times and
    does not return [None]; and the only exception of class [Exception]
    that leaves it is the [RuntimeError] it raises after [max_retries]
    invocations, whose text names the attempt count and the last failure. *)
Theorem translate_outcome_shape query context model max_retries n :
  1 <= max_retries →
  let run :=
    process_nlp_request chat json_loads rtext query context model max_retries n in
  ∃ j,
    (1 <= j <= Z.to_nat max_retries)%nat ∧
    snd run = (n + j)%nat ∧
    fst run ≠ Returns None ∧
    ∀ e, fst run = Raises e →
         is_exception e = true →
         j = Z.to_nat max_retries ∧
         ∃ last,
           e = Exn RuntimeError
                 ("Failed to process NLP request after " +:+ pretty max_retries
                    +:+ " attempts: " +:+ exn_str last).
Proof.
  intros Hpos. cbn zeta. unfold process_nlp_request.
  destruct (retry_loop_shape (build_messages query context) model max_retries
              (Z.to_nat max_retries) 0 n) as (j & Hj & Hn & Hout); [lia | lia |].
  exists j. split; [done |]. split; [done |].
  destruct Hout as [[request Hok] | [[-> [last Hraise]] | (e0 & Hint & Hexn)]].
  - rewrite Hok. split; [done |]. intros e [=].
  - rewrite Hraise. split; [done |]. intros e [= <-] _. split; [done |]. by eexists.
  - rewrite Hint. split; [done |]. intros e [= <-] He. congruence.
Qed.

(** X22: retrying is driven by invalid output.  If the first [k] replies
    are invalid output (empty, undecodable, or of the wrong shape) and the
    next one, still within [max_retries], carries a request, the translator
    returns that request after exactly [k + 1] invocations; and if all
    [max_retries] replies are invalid output, it makes exactly [max_retries]
    invocations and raises a [RuntimeError] whose text holds the attempt
    count and the text of the last failure. *)
Theorem translate_retries_invalid_output query context model max_retries n :
  let msgs := build_messages query context in
  let translate :=
    process_nlp_request chat json_loads rtext query context model max_retries n in
  (∀ k r request,
     (k < Z.to_nat max_retries)%nat →
     (∀ i, (i < k)%nat →
        ∃ ri, chat (n + i)%nat msgs model = Returns ri ∧
              invalid_output json_loads ri) →
     chat (n + k)%nat msgs model = Returns r →
     valid_output json_loads r request →
     translate = (Returns (Some request), (n + (k + 1))%nat)) ∧
  (1 <= max_retries →
   (∀ i, (i < Z.to_nat max_retries)%nat →
      ∃ ri, chat (n + i)%nat msgs model = Returns ri ∧
            invalid_output json_loads ri) →
   ∃ last,
     read_reply json_loads rtext
       (chat (n + Z.to_nat max_retries - 1)%nat msgs model) = Raises last ∧
     translate =
       (Raises (Exn RuntimeError
                  ("Failed to process NLP request after " +:+ pretty max_retries
                     +:+ " attempts: " +:+ exn_str last)),
        (n + Z.to_nat max_retries)%nat)).
Proof.
  intros msgs translate. subst translate. unfold process_nlp_request.
  fold msgs.
  assert (Hinvalid : ∀ m,
    (∀ i, (i < m)%nat →
       ∃ ri, chat (n + i)%nat msgs model = Returns ri ∧
             invalid_output json_loads ri) →
    ∀ i, (i < m)%nat →
       ∃ e, invalid_reply chat json_loads rtext msgs model (n + i) e).
  { intros m Hbad i Hi. destruct (Hbad i Hi) as (ri & Hri & Hinv).
    destruct (invalid_output_rejected ri Hinv) as (e & He & Hexn).
    exists e. unfold invalid_reply. by rewrite Hri. }
  split.
  - intros k r request Hk Hbad Hr Hgood.
    replace (k + 1)%nat with (S k) by lia.
    apply retry_loop_valid; [done | lia | by apply Hinvalid |].
    rewrite Hr. by apply valid_output_accepted.
  - intros Hpos Hbad.
    destruct (retry_loop_exhausted msgs model max_retries
                (Z.to_nat max_retries) 0 n) as (e & [He _] & Hrun);
      [lia | lia | by apply Hinvalid |].
    exists e. split; [done |]. exact Hrun.
Qed.

End TranslatorFacts.

(** * Properties of the conversation context *)

(** C9: [add_assistant_message] appends exactly one turn, with role
    [assistant], after the turns already there, which stay as they were, and
    sets [last_response] to its [api_response] argument whatever it was
    before; called without an [api_response] after a call that had set one,
    it leaves [last_response] empty. *)
Theorem add_assistant_message_overwrites now message api_response ctx :
  let ctx' := add_assistant_message now message api_response ctx in
  (∃ turn,
     messages ctx' = messages ctx ++ [turn] ∧
     dict_get turn "role" = Some (PStr "assistant") ∧
     dict_get turn "content" = Some (PStr message) ∧
     dict_get turn "api_response" = Some (of_optional api_response)) ∧
  length (messages ctx') = S (length (messages ctx)) ∧
  (∀ i turn, messages ctx !! i = Some turn → messages ctx' !! i = Some turn) ∧
  last_response ctx' = api_response ∧
  (∀ now0 message0 previous,
     last_response
       (add_assistant_message now message None
          (add_assistant_message now0 message0 (Some previous) ctx)) = None).
Proof.
  cbn zeta. split; [eexists; split; [reflexivity |]; done |].
  split; [cbn [add_assistant_message messages]; rewrite length_app; cbn; lia |].
  split; [| done].
  intros i turn Hi. cbn [add_assistant_message messages].
  by apply lookup_app_l_Some.
Qed.

(** X13: [add_user_message] appends exactly one turn, with role [user] and
    the message as content, after the turns already there, which stay as
    they were; it carries no [api_response] entry and leaves
    [last_response] as it was. *)
Theorem add_user_message_appends now message ctx :
  let ctx' := add_user_message now message ctx in
  (∃ turn,
     messages ctx' = messages ctx ++ [turn] ∧
     dict_get turn "role" = Some (PStr "user") ∧
     dict_get turn "content" = Some (PStr message) ∧
     dict_get turn "timestamp" = Some (PStr now) ∧
     dict_get turn "api_response" = None) ∧
  (∀ i turn, messages ctx !! i = Some turn → messages ctx' !! i = Some turn) ∧
  last_response ctx' = last_response ctx.
Proof.
  cbn zeta. split; [eexists; split; [reflexivity |]; done |].
  split; [| done].
  intros i turn Hi. cbn [add_user_message messages].
  by apply lookup_app_l_Some.
Qed.

Lemma latest_api_response_app msgs turn :
  latest_api_response (msgs ++ [turn]) =
    if is_assistant turn then dict_get_default turn "api_response" PNone
    else latest_api_response msgs.
Proof. unfold latest_api_response. by rewrite fold_left_app. Qed.

Lemma apply_op_latest ctx o :
  latest_api_response (messages ctx) = of_optional (last_response ctx) →
  latest_api_response (messages (apply_op ctx o))
    = of_optional (last_response (apply_op ctx o)).
Proof.
  intros Hinv. destruct o as [now message | now message api_response];
    cbn [apply_op add_user_message add_assistant_message messages last_response];
    rewrite latest_api_response_app; [exact Hinv | reflexivity].
Qed.

(** X14: [last_response] always mirrors the history: if it equals the
    [api_response] entry of the latest assistant turn (or is empty when
    there is none), it still does after any sequence of calls of
    [add_user_message] and [add_assistant_message]; this holds from the
    empty context on. *)
Theorem last_response_mirrors_history ctx ops :
  latest_api_response (messages ctx) = of_optional (last_response ctx) →
  latest_api_response (messages (apply_ops ctx ops))
    = of_optional (last_response (apply_ops ctx ops)).
Proof.
  revert ctx. induction ops as [| o ops IH]; intros ctx Hinv; [exact Hinv |].
  cbn [apply_ops fold_left]. apply IH. by apply apply_op_latest.
Qed.

Lemma apply_op_messages ctx o :
  ∃ turn, messages (apply_op ctx o) = messages ctx ++ [turn].
Proof. destruct o; eexists; reflexivity. Qed.

(** X15: the history is append-only: after any sequence of calls of the two
    methods the message list is the old one followed by one new turn per
    call, so every earlier turn is still at its index. *)
Theorem context_append_only ctx ops :
  ∃ added,
    messages (apply_ops ctx ops) = messages ctx ++ added ∧
    length added = length ops ∧
    ∀ i turn, messages ctx !! i = Some turn →
              messages (apply_ops ctx ops) !! i = Some turn.
Proof.
  revert ctx. induction ops as [| o ops IH]; intros ctx.
  - exists []. split; [by rewrite app_nil_r |]. done.
  - destruct (IH (apply_op ctx o)) as (added & Hadded & Hlen & _).
    destruct (apply_op_messages ctx o) as [turn Hturn].
    exists (turn :: added). cbn [apply_ops fold_left].
    unfold apply_ops in Hadded. rewrite Hadded, Hturn, <- app_assoc.
    split; [done |]. split; [cbn; by rewrite Hlen |].
    intros i t Hi. by apply lookup_app_l_Some.
Qed.

(** * Properties of a session turn *)

Section SessionFacts.

Variable api : list api_call -> api_call -> outcome pydict.
Variable vtext : pyval -> string.
Variable lower : string -> string.
Variable chat : nat -> list pydict -> string -> outcome chat_response.
Variable json_loads : string -> pyval + string.
Variable rtext : pyval -> string.

Lemma execute_success_data request w r w' :
  execute api vtext lower request w = (Returns r, w') →
  success r = true →
  ∃ result,
    r = {| success := true; data := Some result; error := None |} ∧
    dict_get result "error" = None.
Proof.
  intros Hrun Hok.
  destruct (execute_returns _ _ _ _ _ _ _ Hrun) as [Htry | (e & _ & _ & ->)];
    [| discriminate].
  destruct (execute_try_returns _ _ _ _ _ _ _ Htry)
    as [(_ & -> & _) | (h & result & w1 & _ & _ & _ & Hresp)];
    [discriminate |].
  rewrite respond_cases in Hresp.
  destruct (dict_get result "error") as [[] |] eqn:Herr;
    try discriminate; injection Hresp as <-; try discriminate.
  eauto.
Qed.

(** X17: when none of the three replies of the model service passes
    validation, the turn does not reach the dispatcher: the client is not
    called and the cache is untouched, the service has been invoked three
    times, [last_response] is empty, and the assistant turn carries the text
    of the translation failure. *)
Theorem session_turn_translation_failure query now_user now_assistant s :
  let msgs :=
    build_messages query (add_user_message now_user query (context s)) in
  (∀ i, (i < 3)%nat →
     ∃ e, invalid_reply chat json_loads rtext msgs "hermes3" (chat_calls s + i) e) →
  let s' :=
    session_turn api vtext lower chat json_loads rtext query now_user now_assistant s in
  api_state s' = api_state s ∧
  chat_calls s' = (chat_calls s + 3)%nat ∧
  last_response (context s') = None ∧
  ∃ e turn,
    invalid_reply chat json_loads rtext msgs "hermes3" (chat_calls s + 2) e ∧
    last (messages (context s')) = Some turn ∧
    dict_get turn "role" = Some (PStr "assistant") ∧
    dict_get turn "content" =
      Some (PStr ("Error: Failed to process NLP request after 3 attempts: "
                  +:+ exn_str e)).
Proof.
  intros msgs Hbad. cbn zeta. unfold session_turn, process_nlp_request.
  fold msgs.
  destruct (retry_loop_exhausted chat json_loads rtext msgs "hermes3" 3
              (Z.to_nat 3) 0 (chat_calls s)) as (e & He & Hrun);
    [cbn; lia | cbn; lia | exact Hbad |].
  rewrite Hrun. cbn [is_exception exn_class_of api_state chat_calls context].
  repeat split.
  exists e. eexists. split; [| split; [| split]].
  - by replace (chat_calls s + 2)%nat
      with (chat_calls s + Z.to_nat 3 - 1)%nat by (cbn; lia).
  - unfold record_error. cbn [add_assistant_message messages].
    apply last_snoc.
  - reflexivity.
  - reflexivity.
Qed.

(** X18: after a session turn [last_response] is set only if the dispatch
    of that turn succeeded, and then it holds a mapping without an [error]
    key; the one other way is a turn cut short by an exception that
    [except Exception] does not catch, which leaves [last_response] as the
    turn found it. *)
Theorem session_turn_last_response query now_user now_assistant s result :
  last_response
    (context (session_turn api vtext lower chat json_loads rtext
                query now_user now_assistant s)) = Some result →
  (dict_get result "error" = None ∧
   ∃ request w n,
     process_nlp_request chat json_loads rtext query
       (add_user_message now_user query (context s)) "hermes3" 3 (chat_calls s)
       = (Returns (Some request), n) ∧
     execute api vtext lower request (api_state s)
       = (Returns {| success := true; data := Some result; error := None |}, w)) ∨
  (∃ e,
     interrupt (session_turn api vtext lower chat json_loads rtext
                  query now_user now_assistant s) = Some e ∧
     is_exception e = false ∧
     last_response (context s) = Some result).
Proof.
  unfold session_turn, record_error.
  destruct (process_nlp_request _ _ _ _ _ _ _ _) as [[[request |] | e] n];
    [| intros [=] |].
  - destruct (execute api vtext lower request (api_state s))
      as [[response | e] w] eqn:Hrun.
    + cbn [context]. destruct (success response) eqn:Hok; [| intros [=]].
      cbn [add_assistant_message last_response]. intros Hdata. left.
      destruct (execute_success_data _ _ _ _ Hrun Hok) as (result' & -> & Herr).
      cbn [data] in Hdata. injection Hdata as <-. split; [done |]. eauto.
    + destruct (is_exception e) eqn:Hexn; [intros [=] |].
      cbn [context interrupt add_user_message last_response]. intros Hlast.
      right. eauto.
  - destruct (is_exception e) eqn:Hexn; [intros [=] |].
    cbn [context interrupt add_user_message last_response]. intros Hlast.
    right. eauto.
Qed.

(** X19: a session turn invokes the model service at least once and at most
    three times. *)
Theorem session_turn_chat_calls query now_user now_assistant s :
  let s' :=
    session_turn api vtext lower chat json_loads rtext query now_user now_assistant s in
  (chat_calls s < chat_calls s' <= chat_calls s + 3)%nat.
Proof.
  cbn zeta.
  destruct (translate_outcome_bound chat json_loads rtext query
              (add_user_message now_user query (context s)) "hermes3" 3
              (chat_calls s)) as (j & Hj & Hn); [lia |].
  unfold session_turn.
  destruct (process_nlp_request _ _ _ _ _ _ _ _) as [[[request |] | e] n];
    cbn [snd] in Hn; subst n;
    [destruct (execute api vtext lower request (api_state s))
       as [[response | e] w]; [| destruct (is_exception e)] |
     | destruct (is_exception e)];
    cbn [chat_calls]; cbn in Hj; lia.
Qed.

End SessionFacts.

(** * Concrete runs *)

(** C1, as stated, fails in two ways the code intends.  A client answer
    whose [error] value is not a string is rejected by the [Optional[str]]
    field, so the response carries the validation text and not that value;
    and an exception outside the class [Exception] raised by the client
    passes [except Exception], so [execute] raises it. *)
Lemma execute_error_value_and_interrupt :
  execute (stub_client (Returns elon) (Returns [("error", PInt 404)]))
    stub_text ascii_lower
    {| operation := "like"; params := [("tweet_id", PStr "20")] |} fresh_world
  = (Returns (failure (Some "validation error")),
     {| user_id_cache := ∅; calls := [like_tweet (PStr "20")] |}) ∧
  execute (stub_client (Returns elon) (Raises (Exn KeyboardInterrupt "interrupted")))
    stub_text ascii_lower
    {| operation := "like"; params := [("tweet_id", PStr "20")] |} fresh_world
  = (Raises (Exn KeyboardInterrupt "interrupted"),
     {| user_id_cache := ∅; calls := [like_tweet (PStr "20")] |}).
Proof. split; reflexivity. Qed.

Lemma execute_normalises_witness :
  single_call "like" [("tweet_id", PStr "20")] (like_tweet (PStr "20")) ∧
  fst (execute (stub_client (Returns elon) (Returns [("error", PStr "Not found")]))
         stub_text ascii_lower
         {| operation := "like"; params := [("tweet_id", PStr "20")] |}
         fresh_world)
  = Returns (failure (Some "Not found")).
Proof.
  assert (Hcall : single_call "like" [("tweet_id", PStr "20")]
                    (like_tweet (PStr "20"))) by (by constructor).
  split; [exact Hcall |].
  destruct (execute_normalises
              (stub_client (Returns elon) (Returns [("error", PStr "Not found")]))
              stub_text ascii_lower
              {| operation := "like"; params := [("tweet_id", PStr "20")] |}
              fresh_world) as (_ & Hsingle & _).
  rewrite (Hsingle (like_tweet (PStr "20")) Hcall); [reflexivity |].
  intros [=].
Defined.

(** A [user] lookup answered [{'data': None}], a mapping without [error],
    ends in a failure: the caching statement evaluates ['id' in None]. *)
Lemma execute_user_none_data_fails :
  let api := stub_client (Returns [("data", PNone)]) (Returns []) in
  let request :=
    {| operation := "user"; params := [("username", PStr "bob")] |} in
  api [] (get_user_info (PStr "bob")) = Returns [("data", PNone)] ∧
  dict_get [("data", PNone)] "error" = None ∧
  execute api stub_text ascii_lower request fresh_world =
    (Returns (failure (Some "argument of type 'NoneType' is not iterable")),
     {| user_id_cache := ∅; calls := [get_user_info (PStr "bob")] |}).
Proof. cbn zeta. repeat split. Qed.

(** C2: with [max_retries = 0] and a service whose every reply is invalid,
    the translator makes no invocation and returns [None]; it raises
    nothing. *)
Lemma translate_zero_retries_returns_none :
  process_nlp_request (flaky_chat 9) stub_json_loads stub_text
    "get user elonmusk" empty_context "hermes3" 0 0 = (Returns None, 0%nat).
Proof. reflexivity. Qed.

(** C3, as stated, fails: after a [user] operation has cached the empty
    identifier its lookup returned, the username is a key of the cache, and
    a [tweets] operation for it calls the user lookup again. *)
Lemma tweets_empty_cached_id_looks_up :
  let w1 :=
    snd (execute late_id_client stub_text ascii_lower
           {| operation := "user"; params := [("username", PStr "ElonMusk")] |}
           fresh_world) in
  let w2 :=
    snd (execute late_id_client stub_text ascii_lower
           {| operation := "tweets"; params := [("username", PStr "elonMusk")] |}
           w1) in
  user_id_cache w1 !! ascii_lower "elonMusk" = Some (PStr "") ∧
  calls w1 = [get_user_info (PStr "ElonMusk")] ∧
  calls w2 = [get_user_info (PStr "ElonMusk");
              get_user_info (PStr "elonmusk");
              get_user_tweets (PStr "44196397") (PInt 10)].
Proof. cbn zeta. repeat split. Qed.

Lemma tweets_cache_hit_witness :
  user_id_cache warm_world !! ascii_lower "ElonMusk" = Some (PStr "44196397") ∧
  execute (stub_client (Raises (Exn OtherException "unreachable")) (Returns no_tweets))
    stub_text ascii_lower
    {| operation := "tweets";
       params := [("username", PStr "ElonMusk"); ("limit", PInt 5)] |} warm_world
  = (Returns {| success := true; data := Some no_tweets; error := None |},
     {| user_id_cache := user_id_cache warm_world;
        calls := [get_user_tweets (PStr "44196397") (PInt 5)] |}).
Proof.
  split; [reflexivity |].
  exact (proj1 (tweets_cache_hit
                  (stub_client (Raises (Exn OtherException "unreachable"))
                     (Returns no_tweets))
                  stub_text ascii_lower
                  [("username", PStr "ElonMusk"); ("limit", PInt 5)]
                  warm_world "ElonMusk" (PStr "44196397")
                  eq_refl eq_refl eq_refl)).
Defined.

(** C4, as stated, fails: a [user] operation with the empty username that
    succeeds with a result holding an identifier leaves the cache empty. *)
Lemma user_empty_username_not_cached :
  let api := stub_client (Returns elon) (Returns []) in
  let request := {| operation := "user"; params := [("username", PStr "")] |} in
  fst (execute api stub_text ascii_lower request fresh_world)
    = Returns {| success := true; data := Some elon; error := None |} ∧
  dict_get elon "data"
    = Some (PDict [("id", PStr "44196397"); ("username", PStr "elonmusk")]) ∧
  user_id_cache (snd (execute api stub_text ascii_lower request fresh_world))
    !! ascii_lower "" = None.
Proof. cbn zeta. repeat split. Qed.

Lemma user_success_caches_id_witness :
  let api := stub_client (Returns elon) (Returns []) in
  let request :=
    {| operation := "user"; params := [("username", PStr "ElonMusk")] |} in
  let w' := snd (execute api stub_text ascii_lower request fresh_world) in
  user_id_cache w' = <["elonmusk" := PStr "44196397"]> ∅ ∧
  user_id_cache w' !! ascii_lower "ELONMUSK" = Some (PStr "44196397").
Proof.
  cbn zeta.
  set (api := stub_client (Returns elon) (Returns [])).
  set (request :=
         {| operation := "user"; params := [("username", PStr "ElonMusk")] |}).
  destruct (execute api stub_text ascii_lower request fresh_world)
    as [o w'] eqn:Hrun.
  assert (Ho : o = Returns {| success := true; data := Some elon; error := None |}).
  { by injection Hrun as <- _. }
  subst o.
  destruct (user_success_caches_id api stub_text ascii_lower request fresh_world
              _ w' "ElonMusk" elon
              [("id", PStr "44196397"); ("username", PStr "elonmusk")]
              (PStr "44196397") eq_refl eq_refl ltac:(discriminate) Hrun
              eq_refl eq_refl eq_refl eq_refl) as [Hcache Hslot].
  split; [exact Hcache |]. exact (Hslot "ELONMUSK" eq_refl).
Defined.

(** C5, as stated, fails: when the lookup's [error] value is not a string,
    the failure response carries the validation text, not the lookup's
    error. *)
Lemma tweets_lookup_error_not_string :
  let api := stub_client (Returns [("error", PInt 404)]) (Returns no_tweets) in
  let p := [("username", PStr "Nobody")] in
  _handle_tweets api ascii_lower p fresh_world
    = (Returns [("error", PInt 404)],
       {| user_id_cache := ∅; calls := [get_user_info (PStr "nobody")] |}) ∧
  execute api stub_text ascii_lower {| operation := "tweets"; params := p |}
    fresh_world
  = (Returns (failure (Some "validation error")),
     {| user_id_cache := ∅; calls := [get_user_info (PStr "nobody")] |}).
Proof. cbn zeta. split; reflexivity. Qed.

Lemma tweets_lookup_error_witness :
  let api :=
    stub_client (Returns [("error", PStr "User not found")]) (Returns no_tweets) in
  let p := [("username", PStr "Nobody")] in
  truthy (cached fresh_world (ascii_lower "Nobody")) = false ∧
  execute api stub_text ascii_lower {| operation := "tweets"; params := p |}
    fresh_world
  = (Returns (failure (Some "User not found")),
     {| user_id_cache := ∅; calls := [get_user_info (PStr "nobody")] |}).
Proof.
  cbn zeta. split; [reflexivity |].
  destruct (tweets_lookup_error
              (stub_client (Returns [("error", PStr "User not found")])
                 (Returns no_tweets))
              stub_text ascii_lower [("username", PStr "Nobody")] fresh_world
              "Nobody" [("error", PStr "User not found")]
              eq_refl eq_refl eq_refl eq_refl)
    as (_ & r & Hrun & Hs & Hd & He).
  rewrite Hrun. destruct r as [s d e]. cbn in Hs, Hd, He. by subst.
Defined.

Lemma tweets_falsy_cached_id_witness :
  let api := stub_client (Returns elon) (Returns no_tweets) in
  let w' :=
    snd (execute api stub_text ascii_lower
           {| operation := "tweets"; params := [("username", PStr "ElonMusk")] |}
           stale_world) in
  user_id_cache stale_world !! ascii_lower "ElonMusk" = Some (PStr "") ∧
  user_id_cache w'
    = <["elonmusk" := PStr "44196397"]> (user_id_cache stale_world) ∧
  calls w' = [get_user_info (PStr "elonmusk");
              get_user_tweets (PStr "44196397") (PInt 10)].
Proof.
  cbn zeta. split; [reflexivity |].
  destruct (tweets_falsy_cached_id (stub_client (Returns elon) (Returns no_tweets))
              stub_text ascii_lower [("username", PStr "ElonMusk")] stale_world
              "ElonMusk" (PStr "") eq_refl eq_refl eq_refl)
    as (o & w' & rest & Hrun & Hcalls & Hfresh & _).
  rewrite Hrun. cbn [snd].
  destruct (Hfresh elon
              (PDict [("id", PStr "44196397"); ("username", PStr "elonmusk")])
              (PStr "44196397") eq_refl eq_refl eq_refl eq_refl)
    as [Hcache ->].
  split; [exact Hcache | exact Hcalls].
Defined.

(** C7, as stated, fails: a [search] whose client answers [{'error': None}]
    yields a response with [success = false] and no error set. *)
Lemma search_error_none_unset :
  let api := stub_client (Returns elon) (Returns [("error", PNone)]) in
  let request := {| operation := "search"; params := [("query", PStr "rocq")] |} in
  api [] (search_tweets (PStr "rocq") (PInt 10)) = Returns [("error", PNone)] ∧
  fst (execute api stub_text ascii_lower request fresh_world)
    = Returns {| success := false; data := None; error := None |}.
Proof. cbn zeta. repeat split. Qed.

Lemma execute_unsupported_operation_witness :
  ("retweet" ∉ known_operations) ∧
  execute (stub_client (Returns elon) (Returns no_tweets)) stub_text ascii_lower
    {| operation := "retweet"; params := [("tweet_id", PStr "20")] |} fresh_world
  = (Returns (failure (Some "Unsupported operation: retweet")), fresh_world).
Proof.
  assert (Hop : "retweet" ∉ known_operations).
  { unfold known_operations. intros Hin.
    repeat (apply elem_of_cons in Hin as [Hin | Hin]; [discriminate |]).
    by apply elem_of_nil in Hin. }
  split; [exact Hop |].
  exact (execute_unsupported_operation _ _ _
           {| operation := "retweet"; params := [("tweet_id", PStr "20")] |}
           fresh_world Hop).
Defined.

Lemma execute_missing_required_param_witness :
  ("like", "tweet_id") ∈ spec_required_params ∧
  dict_get [("id", PStr "20")] "tweet_id" = None ∧
  execute (stub_client (Returns elon) (Returns no_tweets)) stub_text ascii_lower
    {| operation := "like"; params := [("id", PStr "20")] |} fresh_world
  = (Returns (failure (Some "'tweet_id'")), fresh_world).
Proof.
  assert (Hreq : ("like", "tweet_id") ∈ spec_required_params).
  { unfold spec_required_params. repeat constructor. }
  split; [exact Hreq |]. split; [reflexivity |].
  exact (execute_missing_required_param _ _ _
           {| operation := "like"; params := [("id", PStr "20")] |}
           "tweet_id" fresh_world Hreq eq_refl).
Defined.

(** * Further concrete runs *)

Lemma failed_user_keeps_cache_witness :
  let api := stub_client (Returns [("error", PStr "Not found")]) (Returns no_tweets) in
  let request := {| operation := "user"; params := [("username", PStr "Bob")] |} in
  execute api stub_text ascii_lower request warm_world =
    (Returns (failure (Some "Not found")),
     {| user_id_cache := user_id_cache warm_world;
        calls := [get_user_info (PStr "Bob")] |}) ∧
  user_id_cache (snd (execute api stub_text ascii_lower request warm_world))
    = user_id_cache warm_world.
Proof.
  cbn zeta. split; [reflexivity |].
  exact (failed_user_keeps_cache
           (stub_client (Returns [("error", PStr "Not found")]) (Returns no_tweets))
           stub_text ascii_lower
           {| operation := "user"; params := [("username", PStr "Bob")] |}
           warm_world (failure (Some "Not found"))
           {| user_id_cache := user_id_cache warm_world;
              calls := [get_user_info (PStr "Bob")] |}
           eq_refl eq_refl eq_refl).
Defined.

Lemma execute_keeps_truthy_ids_witness :
  let api := stub_client (Returns [("error", PStr "Not found")]) (Returns no_tweets) in
  let request := {| operation := "tweets"; params := [("username", PStr "Jack")] |} in
  user_id_cache warm_world !! "elonmusk" = Some (PStr "44196397") ∧
  user_id_cache (snd (execute api stub_text ascii_lower request warm_world)) !! "elonmusk"
    = Some (PStr "44196397").
Proof.
  cbn zeta. split; [reflexivity |].
  set (api := stub_client (Returns [("error", PStr "Not found")]) (Returns no_tweets)).
  set (request := {| operation := "tweets"; params := [("username", PStr "Jack")] |}).
  assert (Hrun : execute api stub_text ascii_lower request warm_world =
                   (Returns (failure (Some "Not found")),
                    {| user_id_cache := user_id_cache warm_world;
                       calls := [get_user_info (PStr "jack")] |}))
    by reflexivity.
  assert (Hop : operation request ≠ "user") by discriminate.
  rewrite Hrun. cbn [snd].
  exact (execute_keeps_truthy_ids api stub_text ascii_lower request warm_world _ _
           "elonmusk" (PStr "44196397") Hrun (or_introl Hop) eq_refl eq_refl).
Defined.

Lemma execute_keeps_keys_lowercase_witness :
  let api := stub_client (Returns elon) (Returns no_tweets) in
  let request :=
    {| operation := "user"; params := [("username", PStr "ElonMusk")] |} in
  is_Some (user_id_cache (snd (execute api stub_text ascii_lower request fresh_world))
             !! "elonmusk") ∧
  ∀ k, is_Some (user_id_cache
                  (snd (execute api stub_text ascii_lower request fresh_world)) !! k) →
       ∃ s, k = ascii_lower s.
Proof.
  cbn zeta. split; [by eexists |].
  apply (execute_keeps_keys_lowercase (stub_client (Returns elon) (Returns no_tweets))
           stub_text ascii_lower
           {| operation := "user"; params := [("username", PStr "ElonMusk")] |}
           fresh_world).
  intros k [v Hv]. cbn in Hv. by rewrite lookup_empty in Hv.
Defined.

Lemma tweets_call_uses_cached_id_witness :
  let api := stub_client (Returns elon) (Returns no_tweets) in
  let request :=
    {| operation := "tweets"; params := [("username", PStr "ElonMusk")] |} in
  calls (snd (execute api stub_text ascii_lower request stale_world))
    = calls stale_world
        ++ [get_user_info (PStr "elonmusk");
            get_user_tweets (PStr "44196397") (PInt 10)] ∧
  ∃ name,
    dict_get (params request) "username" = Some (PStr name) ∧
    user_id_cache (snd (execute api stub_text ascii_lower request stale_world)) !!
      ascii_lower name
      = Some (PStr "44196397") ∧
    PInt 10 = dict_get_default (params request) "limit" (PInt 10).
Proof.
  cbn zeta. split; [reflexivity |].
  apply (tweets_call_uses_cached_id (stub_client (Returns elon) (Returns no_tweets))
           stub_text ascii_lower
           {| operation := "tweets"; params := [("username", PStr "ElonMusk")] |}
           stale_world
           [get_user_info (PStr "elonmusk");
            get_user_tweets (PStr "44196397") (PInt 10)]
           (PStr "44196397") (PInt 10) eq_refl eq_refl).
  repeat constructor.
Defined.

Lemma tweets_miss_then_hit_witness :
  let api := stub_client (Returns elon) (Returns no_tweets) in
  let w1 :=
    snd (execute api stub_text ascii_lower
           {| operation := "tweets"; params := [("username", PStr "ElonMusk")] |}
           fresh_world) in
  let w2 :=
    snd (execute api stub_text ascii_lower
           {| operation := "tweets";
              params := [("username", PStr "elonmusk"); ("limit", PInt 5)] |}
           w1) in
  user_id_cache w2 = user_id_cache w1 ∧
  calls w2 = calls w1 ++ [get_user_tweets (PStr "44196397") (PInt 5)].
Proof.
  exact (tweets_miss_then_hit (stub_client (Returns elon) (Returns no_tweets))
           stub_text ascii_lower
           [("username", PStr "ElonMusk")]
           [("username", PStr "elonmusk"); ("limit", PInt 5)]
           fresh_world "ElonMusk" "elonmusk" elon
           (PDict [("id", PStr "44196397"); ("username", PStr "elonmusk")])
           (PStr "44196397")
           eq_refl eq_refl eq_refl eq_refl eq_refl eq_refl eq_refl eq_refl eq_refl).
Defined.

Lemma user_then_tweets_witness :
  let api := stub_client (Returns elon) (Returns no_tweets) in
  let w1 :=
    snd (execute api stub_text ascii_lower
           {| operation := "user"; params := [("username", PStr "elonmusk")] |}
           fresh_world) in
  let w2 :=
    snd (execute api stub_text ascii_lower
           {| operation := "tweets";
              params := [("username", PStr "ElonMusk"); ("limit", PInt 5)] |}
           w1) in
  calls w2 = [get_user_info (PStr "elonmusk");
              get_user_tweets (PStr "44196397") (PInt 5)].
Proof.
  exact (proj2
           (user_then_tweets (stub_client (Returns elon) (Returns no_tweets))
              stub_text ascii_lower
              [("username", PStr "elonmusk")]
              [("username", PStr "ElonMusk"); ("limit", PInt 5)]
              fresh_world "elonmusk" "ElonMusk" elon
              [("id", PStr "44196397"); ("username", PStr "elonmusk")]
              (PStr "44196397")
              eq_refl ltac:(discriminate) eq_refl eq_refl eq_refl eq_refl
              eq_refl eq_refl eq_refl)).
Defined.

Lemma user_twice_same_cache_witness :
  let api := stub_client (Returns elon) (Returns no_tweets) in
  let w1 :=
    snd (execute api stub_text ascii_lower
           {| operation := "user"; params := [("username", PStr "elonmusk")] |}
           fresh_world) in
  let w2 :=
    snd (execute api stub_text ascii_lower
           {| operation := "user"; params := [("username", PStr "ELONMUSK")] |}
           w1) in
  user_id_cache w2 = user_id_cache w1.
Proof.
  exact (user_twice_same_cache (stub_client (Returns elon) (Returns no_tweets))
           stub_text ascii_lower
           [("username", PStr "elonmusk")] [("username", PStr "ELONMUSK")]
           fresh_world "elonmusk" "ELONMUSK" elon elon
           [("id", PStr "44196397"); ("username", PStr "elonmusk")]
           [("id", PStr "44196397"); ("username", PStr "elonmusk")]
           (PStr "44196397")
           eq_refl ltac:(discriminate) eq_refl eq_refl eq_refl eq_refl
           eq_refl ltac:(discriminate) eq_refl eq_refl eq_refl eq_refl eq_refl).
Defined.

Lemma process_nlp_request_no_attempt_witness :
  process_nlp_request (flaky_chat 0) stub_json_loads stub_text
    "get user elonmusk" empty_context "hermes3" 0 7 = (Returns None, 7%nat).
Proof.
  exact (process_nlp_request_no_attempt (flaky_chat 0) stub_json_loads stub_text
           "get user elonmusk" empty_context "hermes3" 0 7 ltac:(lia)).
Defined.

Lemma translate_outcome_shape_witness :
  ∃ j,
    (1 <= j <= 3)%nat ∧
    snd (process_nlp_request (flaky_chat 1) stub_json_loads stub_text
           "get user elonmusk" empty_context "hermes3" 3 0) = (0 + j)%nat ∧
    fst (process_nlp_request (flaky_chat 1) stub_json_loads stub_text
           "get user elonmusk" empty_context "hermes3" 3 0) ≠ Returns None.
Proof.
  pose proof (translate_outcome_shape (flaky_chat 1) stub_json_loads stub_text
                "get user elonmusk" empty_context "hermes3" 3 0 ltac:(lia))
    as Hshape.
  cbn zeta in Hshape. destruct Hshape as (j & Hj & Hn & Hsome & _).
  exists j. split; [exact Hj |]. split; [exact Hn | exact Hsome].
Defined.

Lemma translate_retries_invalid_output_witness :
  process_nlp_request (flaky_chat 2) stub_json_loads stub_text
    "get user elonmusk" empty_context "hermes3" 3 0
  = (Returns (Some {| operation := "user";
                      params := [("username", PStr "elonmusk")] |}), 3%nat) ∧
  process_nlp_request (flaky_chat 9) stub_json_loads stub_text
    "get user elonmusk" empty_context "hermes3" 3 0
  = (Raises (Exn RuntimeError
               "Failed to process NLP request after 3 attempts: Failed to parse JSON response: Expecting value: line 1 column 1 (char 0)"),
     3%nat).
Proof.
  assert (Hbad : invalid_output stub_json_loads (Message (Some "not json"))).
  { by eapply invalid_undecodable. }
  split.
  - apply (proj1 (translate_retries_invalid_output (flaky_chat 2) stub_json_loads
                    stub_text "get user elonmusk" empty_context "hermes3" 3 0)
             2%nat (Message (Some "REQUEST"))).
    + vm_compute. lia.
    + intros i Hi. exists (Message (Some "not json")). split; [| exact Hbad].
      destruct i as [| [| i]]; [reflexivity | reflexivity | lia].
    + reflexivity.
    + by eapply valid_request.
  - destruct (proj2 (translate_retries_invalid_output (flaky_chat 9)
                       stub_json_loads stub_text "get user elonmusk"
                       empty_context "hermes3" 3 0) ltac:(lia))
      as (last & Hlast & Hrun).
    + intros i Hi. exists (Message (Some "not json")). split; [| exact Hbad].
      destruct i as [| [| [| i]]];
        [reflexivity | reflexivity | reflexivity | exfalso; vm_compute in Hi; lia].
    + injection Hlast as <-. exact Hrun.
Defined.

Lemma last_response_mirrors_history_witness :
  let ctx :=
    apply_ops empty_context
      [UserMessage "2024-01-01T10:00:00" "get user elonmusk";
       AssistantMessage "2024-01-01T10:00:02" "done" (Some elon);
       UserMessage "2024-01-01T10:01:00" "show their tweets"] in
  latest_api_response (messages ctx) = of_optional (last_response ctx).
Proof.
  exact (last_response_mirrors_history empty_context
           [UserMessage "2024-01-01T10:00:00" "get user elonmusk";
            AssistantMessage "2024-01-01T10:00:02" "done" (Some elon);
            UserMessage "2024-01-01T10:01:00" "show their tweets"]
           eq_refl).
Defined.

Lemma session_turn_translation_failure_witness :
  let s' :=
    session_turn (stub_client (Returns elon) (Returns no_tweets)) stub_text ascii_lower
      (flaky_chat 9) stub_json_loads stub_text
      "get user elonmusk" "2024-01-01T10:00:00" "2024-01-01T10:00:03"
      initial_session in
  api_state s' = fresh_world ∧ chat_calls s' = 3%nat ∧
  last_response (context s') = None.
Proof.
  cbn zeta.
  destruct (session_turn_translation_failure
              (stub_client (Returns elon) (Returns no_tweets)) stub_text ascii_lower
              (flaky_chat 9) stub_json_loads stub_text
              "get user elonmusk" "2024-01-01T10:00:00" "2024-01-01T10:00:03"
              initial_session) as (Hapi & Hcalls & Hlast & _).
  - intros i Hi. eexists. unfold invalid_reply.
    destruct i as [| [| [| i]]];
      [split; reflexivity | split; reflexivity | split; reflexivity | lia].
  - split; [exact Hapi |]. split; [exact Hcalls | exact Hlast].
Defined.

Lemma session_turn_last_response_witness :
  let s' :=
    session_turn (stub_client (Returns elon) (Returns no_tweets)) stub_text ascii_lower
      (flaky_chat 1) stub_json_loads stub_text
      "get user elonmusk" "2024-01-01T10:00:00" "2024-01-01T10:00:03"
      initial_session in
  last_response (context s') = Some elon ∧
  interrupt s' = None ∧
  dict_get elon "error" = None.
Proof.
  cbn zeta. split; [reflexivity |]. split; [reflexivity |].
  destruct (session_turn_last_response
              (stub_client (Returns elon) (Returns no_tweets)) stub_text ascii_lower
              (flaky_chat 1) stub_json_loads stub_text
              "get user elonmusk" "2024-01-01T10:00:00" "2024-01-01T10:00:03"
              initial_session elon eq_refl) as [[Herr _] | (e & Hint & _)].
  - exact Herr.
  - discriminate Hint.
Defined.


Lemma tweets_non_string_username_witness :
  execute (stub_client (Returns elon) (Returns no_tweets)) stub_text ascii_lower
    {| operation := "tweets"; params := [("username", PInt 44196397)] |}
    fresh_world
  = (Returns (failure (Some "'int' object has no attribute 'lower'")),
     fresh_world).
Proof.
  apply (tweets_non_string_username (stub_client (Returns elon) (Returns no_tweets))
           stub_text ascii_lower [("username", PInt 44196397)] fresh_world (PInt 44196397)
           eq_refl).
  intros s. discriminate.
Defined.

Lemma tweets_lookup_without_data_witness :
  execute (stub_client (Returns [("status", PStr "ok")]) (Returns no_tweets))
    stub_text ascii_lower
    {| operation := "tweets"; params := [("username", PStr "Jack")] |}
    fresh_world
  = (Returns (failure (Some "'data'")),
     {| user_id_cache := ∅; calls := [get_user_info (PStr "jack")] |}).
Proof.
  exact (tweets_lookup_without_data
           (stub_client (Returns [("status", PStr "ok")]) (Returns no_tweets))
           stub_text ascii_lower [("username", PStr "Jack")] fresh_world "Jack"
           [("status", PStr "ok")] eq_refl eq_refl eq_refl eq_refl eq_refl).
Defined.
